(** * Provider-agnostic AI invocation layer of Task Master

    A shallow embedding of [scripts/modules/openai-compatible-client.js]
    and [scripts/modules/ai-unified-client.js], and the properties of
    message normalisation, provider selection, response parsing and error
    reporting established on it.

    JavaScript values are embedded as an inductive type; functions that
    may throw return a [result]; functions that also write to the logger
    run in the writer monad [M].  The host functions [parseInt],
    [parseFloat] and the string-to-number coercion, and the two network
    transports, are variables of the sections that use them. *)

From Stdlib Require Import String Ascii List ZArith Bool Lia DecimalString.
Import ListNotations.
Open Scope list_scope.
Open Scope string_scope.

(** ** Strings

    A JavaScript string is embedded as a [string] of 8-bit code units;
    code units above 255 are outside the model. *)

Module Str.

(** The double-quote character, as a one-character string. *)
Definition dquote : string := String "034"%char EmptyString.

(** [String.prototype.includes]. *)
Fixpoint includes (needle hay : string) : bool :=
  prefix needle hay ||
  match hay with
  | EmptyString => false
  | String _ hay' => includes needle hay'
  end.

(** White space and line terminators of ECMAScript that fit in one
    8-bit code unit: TAB, LF, VT, FF, CR, SP and NBSP. *)
Definition is_whitespace (c : ascii) : bool :=
  match nat_of_ascii c with
  | 9 | 10 | 11 | 12 | 13 | 32 | 160 => true
  | _ => false
  end.

Fixpoint trimStart (s : string) : string :=
  match s with
  | EmptyString => EmptyString
  | String c s' => if is_whitespace c then trimStart s' else s
  end.

Fixpoint trimEnd (s : string) : string :=
  match s with
  | EmptyString => EmptyString
  | String c s' =>
      match trimEnd s' with
      | EmptyString => if is_whitespace c then EmptyString
                       else String c EmptyString
      | t => String c t
      end
  end.

(** [String.prototype.trim]. *)
Definition trim (s : string) : string := trimEnd (trimStart s).

Definition startsWithSpace (s : string) : bool :=
  match s with
  | EmptyString => false
  | String c _ => is_whitespace c
  end.

Fixpoint endsWithSpace (s : string) : bool :=
  match s with
  | EmptyString => false
  | String c EmptyString => is_whitespace c
  | String _ s' => endsWithSpace s'
  end.

Definition repeat0 (n : nat) : string :=
  string_of_list_ascii (List.repeat "0"%char n).

Fixpoint join (sep : string) (l : list string) : string :=
  match l with
  | [] => ""
  | [s] => s
  | s :: l' => s ++ sep ++ join sep l'
  end.

End Str.

(** ** Numbers

    No arithmetic is performed by the modules: numbers are only tested
    for truthiness, compared with zero and printed.  A finite number is
    kept as the decimal [m * 10^e] that prints it; the two zeros are not
    told apart. *)

Inductive number : Type :=
| NaN
| Infinity (negative : bool)
| Finite (m : Z) (e : Z).

Module Num.

Definition of_nat (n : nat) : number := Finite (Z.of_nat n) 0.

Definition is_falsy (n : number) : bool :=
  match n with
  | NaN => true
  | Infinity _ => false
  | Finite m _ => (m =? 0)%Z
  end.

(** [n > 0]. *)
Definition gt_zero (n : number) : bool :=
  match n with
  | NaN => false
  | Infinity negative => negb negative
  | Finite m _ => (0 <? m)%Z
  end.

Definition digits (n : N) : string :=
  NilZero.string_of_uint (N.to_uint n).

(** Split off the trailing zeros of a digit string: the digits that
    remain, and how many zeros were dropped. *)
Fixpoint strip_zeros (ds : string) : string * nat :=
  match ds with
  | EmptyString => (EmptyString, 0)
  | String c ds' =>
      match strip_zeros ds' with
      | (EmptyString, k) =>
          if Ascii.eqb c "0" then (EmptyString, S k)
          else (String c EmptyString, k)
      | (t, k) => (String c t, k)
      end
  end.

Definition exponent_part (n : Z) : string :=
  "e" ++ (if (n - 1 <? 0)%Z then "-" else "+")
      ++ digits (Z.abs_N (n - 1)).

(** [Number::toString] on a positive decimal with digits [ds] (no
    trailing zero) and [n] the position of the decimal point. *)
Definition positive_to_string (ds : string) (n : Z) : string :=
  let k := Z.of_nat (String.length ds) in
  if ((k <=? n) && (n <=? 21))%Z then
    ds ++ Str.repeat0 (Z.to_nat (n - k))
  else if ((0 <? n) && (n <=? 21))%Z then
    substring 0 (Z.to_nat n) ds ++ "."
      ++ substring (Z.to_nat n) (String.length ds - Z.to_nat n) ds
  else if ((-6 <? n) && (n <=? 0))%Z then
    "0." ++ Str.repeat0 (Z.to_nat (- n)) ++ ds
  else if (k =? 1)%Z then
    ds ++ exponent_part n
  else
    substring 0 1 ds ++ "."
      ++ substring 1 (String.length ds - 1) ds ++ exponent_part n.

(** [Number::toString], radix 10. *)
Definition to_string (x : number) : string :=
  match x with
  | NaN => "NaN"
  | Infinity negative => if negative then "-Infinity" else "Infinity"
  | Finite m e =>
      if (m =? 0)%Z then "0"
      else
        let (ds, z) := strip_zeros (digits (Z.abs_N m)) in
        let n := (Z.of_nat (String.length ds) + (e + Z.of_nat z))%Z in
        (if (m <? 0)%Z then "-" else "") ++ positive_to_string ds n
  end.

End Num.

(** ** Values *)

#[warnings="-register-all"]
Inductive value : Type :=
| VUndefined
| VNull
| VBool (b : bool)
| VNum (n : number)
| VStr (s : string)
| VArr (elements : list value)
| VObj (properties : list (string * value)).

(** Own properties of an object are listed in enumeration order, each key
    once; a lookup takes the first binding. *)
Fixpoint lookup (key : string) (properties : list (string * value)) : value :=
  match properties with
  | [] => VUndefined
  | (k, v) :: rest => if String.eqb k key then v else lookup key rest
  end.

(** [ToBoolean]. *)
Definition truthy (v : value) : bool :=
  match v with
  | VUndefined | VNull => false
  | VBool b => b
  | VNum n => negb (Num.is_falsy n)
  | VStr s => negb (String.eqb s "")
  | VArr _ | VObj _ => true
  end.

(** [a || b] on values already computed. *)
Definition js_or (a b : value) : value := if truthy a then a else b.

(** [v === 'literal']. *)
Definition is_string (v : value) (literal : string) : bool :=
  match v with
  | VStr s => String.eqb s literal
  | _ => false
  end.

(** [typeof v === 'string'] and [Array.isArray(v)] are matches on [VStr]
    and [VArr] in the functions below. *)

(** [ToString]. *)
Fixpoint ToString (v : value) : string :=
  match v with
  | VUndefined => "undefined"
  | VNull => "null"
  | VBool b => if b then "true" else "false"
  | VNum n => Num.to_string n
  | VStr s => s
  | VArr l =>
      Str.join ","
        ((fix elements (l : list value) : list string :=
            match l with
            | [] => []
            | VUndefined :: l' => "" :: elements l'
            | VNull :: l' => "" :: elements l'
            | x :: l' => ToString x :: elements l'
            end) l)
  | VObj _ => "[object Object]"
  end.

(** *** [JSON.stringify] *)

Module JSON.

Definition hex_digit (n : nat) : string :=
  substring n 1 "0123456789abcdef".

(** One code unit inside a JSON string literal. *)
Definition quote_char (c : ascii) : string :=
  let n := nat_of_ascii c in
  match n with
  | 8 => "\b"
  | 9 => "\t"
  | 10 => "\n"
  | 12 => "\f"
  | 13 => "\r"
  | 34 => "\" ++ Str.dquote
  | 92 => "\\"
  | _ => if Nat.ltb n 32
         then "\u00" ++ hex_digit (n / 16) ++ hex_digit (n mod 16)
         else String c EmptyString
  end.

Fixpoint quote_body (s : string) : string :=
  match s with
  | EmptyString => EmptyString
  | String c s' => quote_char c ++ quote_body s'
  end.

(** [QuoteJSONString]. *)
Definition quote (s : string) : string :=
  Str.dquote ++ quote_body s ++ Str.dquote.

(** [SerializeJSONProperty]: [None] stands for the result [undefined]. *)
Fixpoint serialize (v : value) : option string :=
  match v with
  | VUndefined => None
  | VNull => Some "null"
  | VBool b => Some (if b then "true" else "false")
  | VNum n =>
      match n with
      | Finite _ _ => Some (Num.to_string n)
      | _ => Some "null"
      end
  | VStr s => Some (quote s)
  | VArr l =>
      Some ("[" ++ Str.join ","
              ((fix elements (l : list value) : list string :=
                  match l with
                  | [] => []
                  | x :: l' =>
                      match serialize x with
                      | Some t => t
                      | None => "null"
                      end :: elements l'
                  end) l) ++ "]")
  | VObj ps =>
      Some ("{" ++ Str.join ","
              ((fix members (ps : list (string * value)) : list string :=
                  match ps with
                  | [] => []
                  | (k, x) :: ps' =>
                      match serialize x with
                      | Some t => (quote k ++ ":" ++ t) :: members ps'
                      | None => members ps'
                      end
                  end) ps) ++ "}")
  end.

(** [JSON.stringify(v)] as a value. *)
Definition stringify (v : value) : value :=
  match serialize v with
  | Some s => VStr s
  | None => VUndefined
  end.

End JSON.

(** ** Exceptions

    What the modules throw and catch: objects with a [name] and a
    [message]; an error raised by the HTTP client also carries the
    response it received (status and body), or the fact that a request
    was sent and left unanswered. *)

Record error : Type := mkError {
  name : string;
  message : string;
  response : option (Z * value);
  request : bool
}.

(** [new Error(msg)]. *)
Definition Error (msg : string) : error := mkError "Error" msg None false.

(** A [TypeError] raised by the engine, with V8's wording. *)
Definition TypeError (msg : string) : error :=
  mkError "TypeError" msg None false.

Inductive result (A : Type) : Type :=
| Ok (a : A)
| Throw (e : error).
Arguments Ok {A} a.
Arguments Throw {A} e.

Definition bind {A B} (c : result A) (k : A -> result B) : result B :=
  match c with
  | Ok a => k a
  | Throw e => Throw e
  end.

Notation "x <- c ;; k" := (bind c (fun x => k))
  (at level 61, c at next level, right associativity).

(** *** Property access

    [get v key] is [v.key] or [v[key]].  The property names read by the
    modules are [role], [content], [system], [messages], [message],
    [choices], [text], [length] and the index [0]; none of them but
    [length] is defined on a built-in prototype. *)

Definition index_of_key (key : string) : option nat :=
  match NilZero.uint_of_string key with
  | Some u =>
      let n := N.of_uint u in
      if String.eqb (Num.digits n) key then Some (N.to_nat n) else None
  | None => None
  end.

Definition get (v : value) (key : string) : result value :=
  match v with
  | VUndefined | VNull =>
      Throw (TypeError ("Cannot read properties of " ++ ToString v
                          ++ " (reading '" ++ key ++ "')"))
  | VBool _ | VNum _ => Ok VUndefined
  | VStr s =>
      if String.eqb key "length" then Ok (VNum (Num.of_nat (String.length s)))
      else match index_of_key key with
           | Some i => match String.get i s with
                       | Some c => Ok (VStr (String c EmptyString))
                       | None => Ok VUndefined
                       end
           | None => Ok VUndefined
           end
  | VArr l =>
      if String.eqb key "length" then Ok (VNum (Num.of_nat (List.length l)))
      else match index_of_key key with
           | Some i => Ok (nth i l VUndefined)
           | None => Ok VUndefined
           end
  | VObj ps => Ok (lookup key ps)
  end.

(** [Array.prototype.find], [filter], [map] and [forEach]-with-[push],
    for callbacks that may throw. *)
Fixpoint js_find (p : value -> result bool) (l : list value) : result value :=
  match l with
  | [] => Ok VUndefined
  | x :: l' => b <- p x ;; if b then Ok x else js_find p l'
  end.

Fixpoint js_filter (p : value -> result bool) (l : list value)
  : result (list value) :=
  match l with
  | [] => Ok []
  | x :: l' =>
      b <- p x ;; r <- js_filter p l' ;; Ok (if b then x :: r else r)
  end.

Fixpoint js_map (f : value -> result value) (l : list value)
  : result (list value) :=
  match l with
  | [] => Ok []
  | x :: l' => y <- f x ;; r <- js_map f l' ;; Ok (y :: r)
  end.

(** [l.forEach(x => { ... result.push(y) ... })]: [f x] is what the body
    pushes on [result] for [x], if anything. *)
Fixpoint js_forEach_push (f : value -> result (option value))
    (l : list value) (acc : list value) : result (list value) :=
  match l with
  | [] => Ok acc
  | x :: l' =>
      o <- f x ;;
      js_forEach_push f l' (match o with
                            | Some y => acc ++ [y]
                            | None => acc
                            end)%list
  end.

(** [l.map((x, index) => f index x)], from index [i] on. *)
Fixpoint js_map_index (f : nat -> value -> value) (i : nat) (l : list value)
  : list value :=
  match l with
  | [] => []
  | x :: l' => f i x :: js_map_index f (S i) l'
  end.

(** ** The logger

    [log(level, message)] is imported from [utils.js]; a call is recorded
    as an entry of the log. *)

Inductive level : Type := debug | info | warn | error_level.

Definition log_entry : Type := level * string.

Definition M (A : Type) : Type := list log_entry * result A.

Definition ret {A} (a : A) : M A := ([], Ok a).

Definition lift {A} (r : result A) : M A := ([], r).

Definition throw {A} (e : error) : M A := ([], Throw e).

Definition log (lvl : level) (msg : string) : M unit := ([(lvl, msg)], Ok tt).

Definition bindM {A B} (c : M A) (k : A -> M B) : M B :=
  match c with
  | (l1, Ok a) => let (l2, r) := k a in ((l1 ++ l2)%list, r)
  | (l1, Throw e) => (l1, Throw e)
  end.

(** [try { c } catch (error) { handler error }]. *)
Definition tryCatch {A} (c : M A) (handler : error -> M A) : M A :=
  match c with
  | (l1, Ok a) => (l1, Ok a)
  | (l1, Throw e) => let (l2, r) := handler e in ((l1 ++ l2)%list, r)
  end.

Notation "x <~ c ;; k" := (bindM c (fun x => k))
  (at level 61, c at next level, right associativity).

(** ** The environment: [process.env] *)

Module Env.
Record t : Type := {
  OPENAI_API_BASE_URL : option string;
  OPENAI_API_KEY : option string;
  ANTHROPIC_API_KEY : option string;
  AI_PROVIDER : option string;
  MODEL : option string;
  MAX_TOKENS : option string;
  TEMPERATURE : option string
}.
End Env.

(** The value of [process.env.X]: a string, or [undefined] when unset. *)
Definition env_value (x : option string) : value :=
  match x with
  | Some s => VStr s
  | None => VUndefined
  end.

(** [process.env.X || 'fallback'], which is always a string. *)
Definition env_or (x : option string) (fallback : string) : string :=
  match x with
  | Some s => if String.eqb s "" then fallback else s
  | None => fallback
  end.

(** ** Call options and requests *)

Module Options.
(** The [options] argument; a field left out is [VUndefined]. *)
Record t : Type := {
  provider : value;
  model : value;
  maxTokens : value;
  temperature : value
}.

(** [{}], the default of the parameter. *)
Definition empty : t := Build_t VUndefined VUndefined VUndefined VUndefined.
End Options.

Module Client.
(** The instance made by [axios.create]. *)
Record t : Type := {
  baseURL : string;
  headers : list (string * string)
}.
End Client.

Module ChatPayload.
Record t : Type := {
  model : value;
  messages : value;
  max_tokens : value;
  temperature : value
}.
End ChatPayload.

(** ** openai-compatible-client.js *)

Definition message_of (role content : value) : value :=
  VObj [("role", role); ("content", content)].

Section OpenAICompatibleClient.

Variable env : Env.t.

(** Host functions. *)
Variables parseInt parseFloat StringToNumber : string -> number.

(** [client.post(path, payload)]: the body of the response ([response.data])
    when the server answers in the 2xx range, an error otherwise. *)
Variable post : Client.t -> string -> ChatPayload.t -> result value.

Definition getOpenAICompatibleConfig : result (string * string) :=
  let missing :=
    Throw (Error "OPENAI_API_BASE_URL environment variable is missing. Set it to use OpenAI compatible API (e.g., http://localhost:11434/v1).") in
  match Env.OPENAI_API_BASE_URL env with
  | Some baseURL =>
      if String.eqb baseURL "" then missing
      else
        let apiKey := env_or (Env.OPENAI_API_KEY env) "not-needed" in
        Ok (baseURL, apiKey)
  | None => missing
  end.

Definition createOpenAICompatibleClient : result Client.t :=
  cfg <- getOpenAICompatibleConfig ;;
  let (baseURL, apiKey) := (cfg : string * string) in
  Ok {| Client.baseURL := baseURL;
        Client.headers :=
          ("Content-Type", "application/json")
          :: (if negb (String.eqb apiKey "")
                 && negb (String.eqb apiKey "not-needed")
              then [("Authorization", "Bearer " ++ apiKey)]
              else []) |}.

(** [ToNumber], as the comparison [v > 0] applies it. *)
Definition ToNumber (v : value) : number :=
  match v with
  | VUndefined => NaN
  | VNull => Finite 0 0
  | VBool b => if b then Finite 1 0 else Finite 0 0
  | VNum n => n
  | VStr s => StringToNumber s
  | VArr _ | VObj _ => StringToNumber (ToString v)
  end.

(** [v > 0]. *)
Definition gt_zero (v : value) : bool := Num.gt_zero (ToNumber v).

(** [content.trim()]. *)
Definition call_trim (content : value) : result string :=
  match content with
  | VStr s => Ok (Str.trim s)
  | VUndefined | VNull =>
      Throw (TypeError ("Cannot read properties of " ++ ToString content
                          ++ " (reading 'trim')"))
  | _ =>
      Throw (TypeError "response.data.choices[0].message.content.trim is not a function")
  end.

(** Lines 77-85: the text of the completion in a response body. *)
Definition extractContent (data : value) : result string :=
  let unexpected := Throw (Error "Unexpected API response format") in
  if truthy data then
    choices <- get data "choices" ;;
    if truthy choices then
      len <- get choices "length" ;;
      if gt_zero len then
        first <- get choices "0" ;;
        msg <- get first "message" ;;
        if truthy msg then
          content <- get msg "content" ;;
          if truthy content then call_trim content
          else unexpected
        else unexpected
      else unexpected
    else unexpected
  else unexpected.

(** Lines 86-99: the handler of the [catch]. *)
Definition rethrow (e : error) : error :=
  match response e with
  | Some (status, data) =>
      Error ("API error (" ++ Num.to_string (Finite status 0) ++ "): "
               ++ ToString (JSON.stringify data))
  | None =>
      if request e then
        Error ("Network error: No response received. Check your OPENAI_API_BASE_URL ("
                 ++ ToString (env_value (Env.OPENAI_API_BASE_URL env)) ++ ").")
      else
        Error ("Error setting up request: " ++ message e)
  end.

Definition chatPayload (messages : value) (options : Options.t)
  : ChatPayload.t :=
  {| ChatPayload.model :=
       js_or (Options.model options) (env_value (Env.MODEL env));
     ChatPayload.messages := messages;
     ChatPayload.max_tokens :=
       js_or (Options.maxTokens options)
             (VNum (parseInt (env_or (Env.MAX_TOKENS env) "64000")));
     ChatPayload.temperature :=
       js_or (Options.temperature options)
             (VNum (parseFloat (env_or (Env.TEMPERATURE env) "0.2"))) |}.

Definition invokeOpenAICompatibleChat (messages : value)
    (options : Options.t) : M string :=
  tryCatch
    (client <~ lift createOpenAICompatibleClient ;;
     let payload := chatPayload messages options in
     _ <~ log debug ("Calling OpenAI compatible API with model: "
                       ++ ToString (ChatPayload.model payload)) ;;
     data <~ lift (post client "/chat/completions" payload) ;;
     lift (extractContent data))
    (fun e => throw (rethrow e)).

(** [messages.length > 0 && messages[0].role && messages[0].content],
    on an array. *)
Definition first_is_message (l : list value) : result bool :=
  match l with
  | [] => Ok false
  | first :: _ =>
      role <- get first "role" ;;
      if truthy role then
        content <- get first "content" ;; Ok (truthy content)
      else Ok false
  end.

(** The body of the [forEach] of lines 146-157. *)
Definition push_converted (msg : value) : result (option value) :=
  role <- get msg "role" ;;
  if truthy role then
    content <- get msg "content" ;;
    if truthy content then
      let role' := if is_string role "human" then VStr "user"
                   else if is_string role "assistant" then VStr "assistant"
                   else role in
      Ok (Some (message_of role' content))
    else Ok None
  else Ok None.

Definition convertToOpenAIMessages (messages : value) : result value :=
  match messages with
  | VStr _ => Ok (VArr [message_of (VStr "user") messages])
  | VArr l =>
      b <- first_is_message l ;;
      if b then Ok messages
      else
        Ok (VArr (js_map_index
                    (fun index message =>
                       message_of (VStr (if Nat.even index
                                         then "user" else "assistant"))
                                  message)
                    0 l))
  | _ =>
      role <- get messages "role" ;;
      content <- (if truthy role then get messages "content" else Ok role) ;;
      if truthy content then Ok (VArr [messages])
      else
        system <- get messages "system" ;;
        inner <- (if truthy system then get messages "messages"
                  else Ok system) ;;
        if truthy inner then
          let result0 :=
            if truthy system then [message_of (VStr "system") system]
            else [] in
          match inner with
          | VArr l =>
              r <- js_forEach_push push_converted l result0 ;; Ok (VArr r)
          | _ => Ok (VArr result0)
          end
        else
          Ok (VArr [message_of (VStr "user") (JSON.stringify messages)])
  end.

Definition handleOpenAICompatibleError (e : error) : string :=
  if Str.includes "Network error" (message e) then
    "Connection error: Unable to reach the AI service at "
      ++ ToString (env_value (Env.OPENAI_API_BASE_URL env))
      ++ ". Please check that your server is running and the URL is correct."
  else if Str.includes "401" (message e) || Str.includes "403" (message e)
  then
    "Authentication error: The API key provided is invalid or missing. Please check your OPENAI_API_KEY."
  else if Str.includes "model" (message e) then
    "Model error: The requested model '"
      ++ ToString (env_value (Env.MODEL env))
      ++ "' may not be available. Please check that you have the correct model name."
  else
    "Error communicating with AI service: " ++ message e.

End OpenAICompatibleClient.

(** ** ai-unified-client.js *)

Module AI_PROVIDER.
Definition ANTHROPIC : string := "anthropic".
Definition OPENAI_COMPATIBLE : string := "openai_compatible".
End AI_PROVIDER.

Module AnthropicClient.
(** The arguments of [new Anthropic(...)]. *)
Record t : Type := {
  apiKey : string;
  defaultHeaders : list (string * string)
}.
End AnthropicClient.

Module AnthropicRequest.
Record t : Type := {
  model : value;
  max_tokens : value;
  temperature : value;
  system : value;
  messages : value
}.
End AnthropicRequest.

Section UnifiedClient.

Variable env : Env.t.
Variables parseInt parseFloat StringToNumber : string -> number.
Variable post : Client.t -> string -> ChatPayload.t -> result value.

(** [client.messages.create(request)] of the Anthropic SDK: the response
    object, or an error. *)
Variable create : AnthropicClient.t -> AnthropicRequest.t -> result value.

Definition determineAIProvider : M string :=
  if truthy (env_value (Env.OPENAI_API_BASE_URL env)) then
    _ <~ log info ("Using OpenAI compatible API at "
                     ++ ToString (env_value (Env.OPENAI_API_BASE_URL env))) ;;
    ret AI_PROVIDER.OPENAI_COMPATIBLE
  else if truthy (env_value (Env.ANTHROPIC_API_KEY env)) then
    _ <~ log info "Using Anthropic API" ;;
    ret AI_PROVIDER.ANTHROPIC
  else
    _ <~ log warn "No AI provider configuration found. Defaulting to OpenAI compatible API." ;;
    ret AI_PROVIDER.OPENAI_COMPATIBLE.

(** Lines 279-280 of [invokeAIModel] (and 364-365 of [createAIClient]):
    [options.provider || process.env.AI_PROVIDER || determineAIProvider()]. *)
Definition resolveProvider (options : Options.t) : M value :=
  if truthy (Options.provider options) then ret (Options.provider options)
  else if truthy (env_value (Env.AI_PROVIDER env)) then
    ret (env_value (Env.AI_PROVIDER env))
  else
    p <~ determineAIProvider ;; ret (VStr p).

Definition createAnthropicClient : result AnthropicClient.t :=
  match Env.ANTHROPIC_API_KEY env with
  | Some key =>
      if String.eqb key "" then
        Throw (Error "ANTHROPIC_API_KEY environment variable is required for using Anthropic API.")
      else
        Ok {| AnthropicClient.apiKey := key;
              AnthropicClient.defaultHeaders :=
                [("anthropic-beta", "output-128k-2025-02-19")] |}
  | None =>
      Throw (Error "ANTHROPIC_API_KEY environment variable is required for using Anthropic API.")
  end.

(** The callbacks [(m) => m.role === 'system'] and
    [(m) => m.role !== 'system'] of lines 303 and 310. *)
Definition roleIsSystem (m : value) : result bool :=
  role <- get m "role" ;; Ok (is_string role "system").

Definition roleIsNotSystem (m : value) : result bool :=
  role <- get m "role" ;; Ok (negb (is_string role "system")).

(** Lines 309-314: one message of the OpenAI format, in Anthropic's. *)
Definition toAnthropicMessage (m : value) : result value :=
  role <- get m "role" ;;
  content <- get m "content" ;;
  Ok (message_of (VStr (if is_string role "user"
                        then "human" else "assistant"))
                 content).

(** Lines 293-323: [systemPrompt] and [promptMessages] for an input. *)
Definition anthropicPrompt (messages : value) : result (value * value) :=
  match messages with
  | VStr _ => Ok (VStr "", messages)
  | VArr l =>
      b <- first_is_message l ;;
      if b then
        systemMsg <-
          js_find (fun m => role <- get m "role" ;;
                            Ok (is_string role "system")) l ;;
        systemPrompt <-
          (if truthy systemMsg then get systemMsg "content"
           else Ok (VStr "")) ;;
        rest <-
          js_filter (fun m => role <- get m "role" ;;
                              Ok (negb (is_string role "system"))) l ;;
        promptMessages <- js_map toAnthropicMessage rest ;;
        Ok (systemPrompt, VArr promptMessages)
      else Ok (VStr "", messages)
  | _ =>
      system <- get messages "system" ;;
      inner <- (if truthy system then Ok system
                else get messages "messages") ;;
      if truthy inner then
        promptMessages <- get messages "messages" ;;
        Ok (js_or system (VStr ""), promptMessages)
      else Ok (VStr "", VUndefined)
  end.

Definition anthropicRequest (messages : value) (options : Options.t)
  : result AnthropicRequest.t :=
  prompt <- anthropicPrompt messages ;;
  let (systemPrompt, promptMessages) := (prompt : value * value) in
  Ok {| AnthropicRequest.model :=
          js_or (js_or (Options.model options) (env_value (Env.MODEL env)))
                (VStr "claude-3-7-sonnet-20250219");
        AnthropicRequest.max_tokens :=
          js_or (Options.maxTokens options)
                (VNum (parseInt (env_or (Env.MAX_TOKENS env) "64000")));
        AnthropicRequest.temperature :=
          js_or (Options.temperature options)
                (VNum (parseFloat (env_or (Env.TEMPERATURE env) "0.2")));
        AnthropicRequest.system := systemPrompt;
        AnthropicRequest.messages := promptMessages |}.

Definition invokeAIModel (messages : value) (options : Options.t)
  : M value :=
  provider <~ resolveProvider options ;;
  tryCatch
    (if is_string provider AI_PROVIDER.OPENAI_COMPATIBLE then
       openAIMessages <~ lift (convertToOpenAIMessages messages) ;;
       text <~ invokeOpenAICompatibleChat env parseInt parseFloat
                 StringToNumber post openAIMessages options ;;
       ret (VStr text)
     else if is_string provider AI_PROVIDER.ANTHROPIC then
       client <~ lift createAnthropicClient ;;
       req <~ lift (anthropicRequest messages options) ;;
       response <~ lift (create client req) ;;
       lift (content <- get response "content" ;;
             block <- get content "0" ;;
             get block "text")
     else
       throw (Error ("Unsupported AI provider: " ++ ToString provider)))
    (fun e =>
       if is_string provider AI_PROVIDER.OPENAI_COMPATIBLE then
         let errorMessage := handleOpenAICompatibleError env e in
         _ <~ log error_level errorMessage ;;
         throw (Error errorMessage)
       else
         let errorMessage := "Anthropic API error: " ++ message e in
         _ <~ log error_level errorMessage ;;
         throw (Error errorMessage)).

End UnifiedClient.

(** *** [createAIClient] *)

Module AIClient.
(** What [createAIClient] returns: the adapter object for the
    OpenAI-compatible API, whose [messages.create] is [adapterCreate]
    below, or the client of the Anthropic SDK. *)
Inductive t : Type :=
| Adapter
| Sdk (client : AnthropicClient.t).
End AIClient.

Section ClientFactory.

Variable env : Env.t.
Variables parseInt parseFloat StringToNumber : string -> number.
Variable post : Client.t -> string -> ChatPayload.t -> result value.

(** The body of the [forEach] of lines 388-393. *)
Definition adapterTurn (msg : value) : result (option value) :=
  role <- get msg "role" ;;
  content <- get msg "content" ;;
  Ok (Some (message_of (VStr (if is_string role "human"
                              then "user" else "assistant"))
                       content)).

(** Lines 376-399: the messages the adapter makes of [params]. *)
Definition adapterMessages (params : value) : result (list value) :=
  system <- get params "system" ;;
  let messages0 :=
    if truthy system then [message_of (VStr "system") system] else [] in
  inner <- get params "messages" ;;
  match inner with
  | VArr l => js_forEach_push adapterTurn l messages0
  | VStr _ => Ok (messages0 ++ [message_of (VStr "user") inner])%list
  | _ => Ok messages0
  end.

(** Lines 374-416: [messages.create] of the adapter. *)
Definition adapterCreate (params : value) : M value :=
  messages <~ lift (adapterMessages params) ;;
  options <~ lift (model <- get params "model" ;;
                   maxTokens <- get params "max_tokens" ;;
                   temperature <- get params "temperature" ;;
                   Ok {| Options.provider := VUndefined;
                         Options.model := model;
                         Options.maxTokens := maxTokens;
                         Options.temperature := temperature |}) ;;
  content <~ invokeOpenAICompatibleChat env parseInt parseFloat
               StringToNumber post (VArr messages) options ;;
  model <~ lift (get params "model") ;;
  ret (VObj [("id", VStr "openai-compatible-message");
             ("content", VArr [VObj [("text", VStr content);
                                     ("type", VStr "text")]]);
             ("model", model);
             ("role", VStr "assistant");
             ("usage", VObj [("input_tokens", VNum (Finite 0 0));
                             ("output_tokens", VNum (Finite 0 0))])]).

Definition createAIClient (options : Options.t) : M AIClient.t :=
  provider <~ resolveProvider env options ;;
  tryCatch
    (if is_string provider AI_PROVIDER.OPENAI_COMPATIBLE then
       ret AIClient.Adapter
     else if is_string provider AI_PROVIDER.ANTHROPIC then
       client <~ lift (createAnthropicClient env) ;;
       ret (AIClient.Sdk client)
     else
       throw (Error ("Unsupported AI provider: " ++ ToString provider)))
    (fun e =>
       let errorMessage := "Failed to create AI client: " ++ message e in
       _ <~ log error_level errorMessage ;;
       throw (Error errorMessage)).

End ClientFactory.

(** ** The vocabulary of the specification *)

Module Neutral.

(** The provider-neutral roles and messages of the data model. *)
Inductive Role : Type := System | User | Assistant.

Record Message : Type := { role : Role; content : string }.

Definition is_system (m : Message) : bool :=
  match role m with
  | System => true
  | _ => false
  end.

(** A neutral message as the caller passes it. *)
Definition encode (m : Message) : value :=
  message_of (VStr match role m with
                   | System => "system"
                   | User => "user"
                   | Assistant => "assistant"
                   end)
             (VStr (content m)).

(** The native turn of the Anthropic target for a User or Assistant
    message. *)
Definition anthropicTurn (m : Message) : value :=
  message_of (VStr match role m with
                   | User => "human"
                   | _ => "assistant"
                   end)
             (VStr (content m)).

(** The content of the first System message, [""] when there is none. *)
Definition firstSystem (ms : list Message) : string :=
  match List.find is_system ms with
  | Some m => content m
  | None => ""
  end.

(** The list is empty, or its first message has a content. *)
Definition headHasContent (ms : list Message) : bool :=
  match ms with
  | [] => true
  | m :: _ => negb (String.eqb (content m) "")
  end.

End Neutral.

(** [v.key], [undefined] where the access would throw. *)
Definition field (key : string) (v : value) : value :=
  match get v key with
  | Ok x => x
  | Throw _ => VUndefined
  end.

(** [choices[0].message.content] of a response body. *)
Definition completionContent (data : value) : value :=
  field "content" (field "message" (field "0" (field "choices" data))).

(** "First present wins": the first truthy candidate, else the default. *)
Fixpoint firstPresent (candidates : list value) (default : value) : value :=
  match candidates with
  | [] => default
  | c :: rest => if truthy c then c else firstPresent rest default
  end.

(** Whether a configuration variable is set to a non-empty string. *)
Definition present (x : option string) : bool := truthy (env_value x).

(** An error of the class the specification names for malformed
    responses. *)
Definition isMalformedResponseError (e : error) : bool :=
  String.eqb (name e) "MalformedResponseError".

(** An exception made by [new Error] or by the engine: it carries neither
    a response nor a request. *)
Definition plain (e : error) : Prop := response e = None /\ request e = false.

(** The turn list of a native request, when it carries one. *)
Definition turnList (native : value) : option (list value) :=
  match native with
  | VArr turns => Some turns
  | _ => None
  end.

(** The message of the warning of [determineAIProvider]. *)
Definition defaultingWarning : log_entry :=
  (warn, "No AI provider configuration found. Defaulting to OpenAI compatible API.").

(** The native turn of the OpenAI-compatible target for a message that is
    not a System message. *)
Definition openAITurn (m : Neutral.Message) : value :=
  message_of (VStr match Neutral.role m with
                   | Neutral.User => "user"
                   | _ => "assistant"
                   end)
             (VStr (Neutral.content m)).

(** The message has a content. *)
Definition hasContent (m : Neutral.Message) : bool :=
  negb (String.eqb (Neutral.content m) "").

(** Every message of the list has a content. *)
Definition allHaveContent (ms : list Neutral.Message) : bool :=
  forallb hasContent ms.

(** [response.content[0].text], as [invokeAIModel] reads it. *)
Definition firstBlockText (response : value) : result value :=
  content <- get response "content" ;;
  block <- get content "0" ;;
  get block "text".

(** The last entry of a log. *)
Definition lastEntry (l : list log_entry) : option log_entry :=
  List.last (map Some l) None.

(** ** Sample inputs *)

Module Sample.

(** A configuration that points at a local endpoint. *)
Definition localEnv : Env.t :=
  {| Env.OPENAI_API_BASE_URL := Some "http://localhost:11434/v1";
     Env.OPENAI_API_KEY := None;
     Env.ANTHROPIC_API_KEY := None;
     Env.AI_PROVIDER := None;
     Env.MODEL := Some "llama3";
     Env.MAX_TOKENS := None;
     Env.TEMPERATURE := None |}.

(** The host's number parsing on the strings the samples meet. *)
Definition hostNumber (s : string) : number :=
  if String.eqb s "64000" then Finite 64000 0
  else if String.eqb s "0.2" then Finite 2 (-1)
  else NaN.

Definition hello : value := VStr "hello".

(** [{choices: [{message: {content}}]}]. *)
Definition completion (content : value) : value :=
  VObj [("choices", VArr [VObj [("message", VObj [("content", content)])]])].

(** A server that answers every request with the same body. *)
Definition answering (data : value)
  : Client.t -> string -> ChatPayload.t -> result value :=
  fun _ _ _ => Ok data.

(** A transport on which every request fails with the same error. *)
Definition failing (e : error)
  : Client.t -> string -> ChatPayload.t -> result value :=
  fun _ _ _ => Throw e.

Definition invokeLocal post messages options : M string :=
  invokeOpenAICompatibleChat localEnv hostNumber hostNumber hostNumber
    post messages options.

(** The error of the Anthropic SDK for an answer with status 429. *)
Definition rateLimitError : error :=
  mkError "RateLimitError" "429 rate limit exceeded"
    (Some (429%Z, VObj [("type", VStr "error")])) false.

(** The Anthropic SDK, answering every request with status 429. *)
Definition throttled
  : AnthropicClient.t -> AnthropicRequest.t -> result value :=
  fun _ _ => Throw rateLimitError.

(** A configuration with a credential for Anthropic only. *)
Definition cloudEnv : Env.t :=
  {| Env.OPENAI_API_BASE_URL := None;
     Env.OPENAI_API_KEY := None;
     Env.ANTHROPIC_API_KEY := Some "sk-ant-0";
     Env.AI_PROVIDER := None;
     Env.MODEL := None;
     Env.MAX_TOKENS := None;
     Env.TEMPERATURE := None |}.

(** Both an endpoint and a credential. *)
Definition bothEnv : Env.t :=
  {| Env.OPENAI_API_BASE_URL := Some "http://localhost:11434/v1";
     Env.OPENAI_API_KEY := None;
     Env.ANTHROPIC_API_KEY := Some "sk-ant-0";
     Env.AI_PROVIDER := None;
     Env.MODEL := None;
     Env.MAX_TOKENS := None;
     Env.TEMPERATURE := None |}.

(** Nothing configured. *)
Definition emptyEnv : Env.t :=
  {| Env.OPENAI_API_BASE_URL := None;
     Env.OPENAI_API_KEY := None;
     Env.ANTHROPIC_API_KEY := None;
     Env.AI_PROVIDER := None;
     Env.MODEL := None;
     Env.MAX_TOKENS := None;
     Env.TEMPERATURE := None |}.

(** Options that set both numbers to zero. *)
Definition zeroOptions : Options.t :=
  {| Options.provider := VUndefined;
     Options.model := VUndefined;
     Options.maxTokens := VNum (Finite 0 0);
     Options.temperature := VNum (Finite 0 0) |}.

(** Options that ask for Anthropic. *)
Definition anthropicOptions : Options.t :=
  {| Options.provider := VStr "anthropic";
     Options.model := VUndefined;
     Options.maxTokens := VUndefined;
     Options.temperature := VUndefined |}.

(** A single [user] turn. *)
Definition helloTurns : value := VArr [message_of (VStr "user") hello].

(** An answer with status 429 whose body names the model. *)
Definition tooManyRequests : error :=
  mkError "AxiosError" "Request failed with status code 429"
    (Some (429%Z,
           VObj [("error",
                  VObj [("message",
                         VStr "Rate limit reached for model llama3")])]))
    true.

(** An answer with status 429 and a body that names nothing else. *)
Definition slowDown : error :=
  mkError "AxiosError" "Request failed with status code 429"
    (Some (429%Z, VObj [("error", VStr "slow down")])) true.

End Sample.

(** * Properties *)

(** ** Trimming *)

Module StrFacts.
Import Str.

Lemma trimStart_no_leading_space s : startsWithSpace (trimStart s) = false.
Proof.
  induction s as [|c s IH]; simpl; [reflexivity|].
  destruct (is_whitespace c) eqn:W; [exact IH|].
  simpl. exact W.
Qed.

Lemma trimEnd_keeps_head s :
  startsWithSpace s = false -> startsWithSpace (trimEnd s) = false.
Proof.
  destruct s as [|c s]; simpl; [reflexivity|].
  intros W. destruct (trimEnd s); simpl; rewrite ?W; simpl; auto.
Qed.

Lemma trimEnd_no_trailing_space s : endsWithSpace (trimEnd s) = false.
Proof.
  induction s as [|c s IH]; simpl; [reflexivity|].
  destruct (trimEnd s) as [|d t] eqn:E.
  - destruct (is_whitespace c) eqn:W; simpl; [reflexivity|exact W].
  - exact IH.
Qed.

Lemma trim_no_leading_space s : startsWithSpace (trim s) = false.
Proof. apply trimEnd_keeps_head, trimStart_no_leading_space. Qed.

Lemma trim_no_trailing_space s : endsWithSpace (trim s) = false.
Proof. apply trimEnd_no_trailing_space. Qed.

Lemma trim_changes_padded s :
  startsWithSpace s = true \/ endsWithSpace s = true -> trim s <> s.
Proof.
  intros [H|H] E; rewrite <- E in H.
  - rewrite trim_no_leading_space in H. discriminate.
  - rewrite trim_no_trailing_space in H. discriminate.
Qed.

End StrFacts.

(** ** The message normaliser *)

Lemma js_map_index_nth f (l : list value) :
  forall k i,
    nth_error (js_map_index f k l) i = option_map (f (k + i)) (nth_error l i).
Proof.
  induction l as [|x l IH]; intros k i.
  - destruct i; reflexivity.
  - destruct i as [|i]; simpl.
    + rewrite Nat.add_0_r. reflexivity.
    + rewrite IH. rewrite Nat.add_succ_comm. reflexivity.
Qed.

Lemma js_map_index_length f (l : list value) :
  forall k, List.length (js_map_index f k l) = List.length l.
Proof.
  induction l as [|x l IH]; intros k; simpl; [reflexivity|].
  rewrite IH. reflexivity.
Qed.

Lemma first_is_message_strings (ss : list string) :
  first_is_message (map VStr ss) = Ok false.
Proof. destruct ss; reflexivity. Qed.

(** C8: a sequence of bare strings is normalised to a turn list of the
    same length whose turn at index [i] carries the [i]-th string, with
    role [user] at even and [assistant] at odd indices. *)
Theorem strings_alternate_roles (ss : list string) :
  exists turns,
    convertToOpenAIMessages (VArr (map VStr ss)) = Ok (VArr turns)
    /\ List.length turns = List.length ss
    /\ forall i,
         nth_error turns i =
         option_map
           (fun s => message_of
                       (VStr (if Nat.even i then "user" else "assistant"))
                       (VStr s))
           (nth_error ss i).
Proof.
  eexists. unfold convertToOpenAIMessages.
  rewrite first_is_message_strings. simpl.
  split; [reflexivity|]. split.
  - rewrite js_map_index_length. apply length_map.
  - intros i. rewrite js_map_index_nth. simpl.
    rewrite nth_error_map. destruct (nth_error ss i); reflexivity.
Qed.

(** ** Response parsing of the OpenAI-compatible client *)

Lemma get_inv v key :
  (exists x, get v key = Ok x /\ field key v = x)
  \/ (exists e, get v key = Throw e /\ plain e).
Proof.
  unfold field. destruct (get v key) as [x|e] eqn:E.
  - left. eauto.
  - right. exists e. split; [reflexivity|].
    destruct v; simpl in E; try discriminate;
      try (injection E as <-; split; reflexivity).
    + destruct (String.eqb key "length"); [discriminate|].
      destruct (index_of_key key); [|discriminate].
      destruct (String.get n s); discriminate.
    + destruct (String.eqb key "length"); [discriminate|].
      destruct (index_of_key key); discriminate.
Qed.

Lemma rethrow_plain env e :
  plain e -> rethrow env e = Error ("Error setting up request: " ++ message e).
Proof. intros [R Q]. unfold rethrow. rewrite R, Q. reflexivity. Qed.

Section ResponseParsing.

Variable env : Env.t.
Variables parseInt parseFloat StringToNumber : string -> number.
Variable post : Client.t -> string -> ChatPayload.t -> result value.

Lemma call_trim_ok content s :
  truthy content = true -> call_trim content = Ok s ->
  exists c, content = VStr c /\ c <> "" /\ s = Str.trim c.
Proof.
  intros T H. destruct content; simpl in H; try discriminate.
  injection H as <-. exists s0. repeat split.
  intros ->. discriminate.
Qed.

Lemma call_trim_throw content e : call_trim content = Throw e -> plain e.
Proof.
  destruct content; simpl; intros H; try discriminate;
    injection H as <-; split; reflexivity.
Qed.

(** One property access of [extractContent]: either it yields a value,
    which [field] yields too, or it throws a plain error. *)
Ltac read v key :=
  let x := fresh "x" in
  let e := fresh "e" in
  let P := fresh "P" in
  destruct (get_inv v key) as [(x & -> & <-)|(e & -> & P)];
  [cbn [bind]|try discriminate; try (intros [= <-]; exact P)].

(** One test of [extractContent]; the false branch throws [Error]. *)
Ltac test c :=
  let T := fresh "T" in
  destruct c eqn:T;
  [|try discriminate; try (intros [= <-]; split; reflexivity)].

Lemma extractContent_ok data s :
  extractContent StringToNumber data = Ok s ->
  exists c, completionContent data = VStr c /\ c <> "" /\ s = Str.trim c.
Proof.
  unfold extractContent, completionContent.
  test (truthy data).
  read data "choices". test (truthy (field "choices" data)).
  read (field "choices" data) "length".
  test (gt_zero StringToNumber (field "length" (field "choices" data))).
  read (field "choices" data) "0".
  read (field "0" (field "choices" data)) "message".
  test (truthy (field "message" (field "0" (field "choices" data)))).
  read (field "message" (field "0" (field "choices" data))) "content".
  test (truthy (field "content"
                  (field "message" (field "0" (field "choices" data))))).
  apply call_trim_ok. assumption.
Qed.

Lemma extractContent_throw data e :
  extractContent StringToNumber data = Throw e -> plain e.
Proof.
  unfold extractContent.
  test (truthy data).
  read data "choices". test (truthy (field "choices" data)).
  read (field "choices" data) "length".
  test (gt_zero StringToNumber (field "length" (field "choices" data))).
  read (field "choices" data) "0".
  read (field "0" (field "choices" data)) "message".
  test (truthy (field "message" (field "0" (field "choices" data)))).
  read (field "message" (field "0" (field "choices" data))) "content".
  test (truthy (field "content"
                  (field "message" (field "0" (field "choices" data))))).
  apply call_trim_throw.
Qed.

Lemma createOpenAICompatibleClient_throw e :
  createOpenAICompatibleClient env = Throw e -> plain e.
Proof.
  unfold createOpenAICompatibleClient, getOpenAICompatibleConfig.
  destruct (Env.OPENAI_API_BASE_URL env) as [url|]; simpl.
  - destruct (String.eqb url ""); simpl; [|discriminate].
    intros [= <-]. split; reflexivity.
  - intros [= <-]. split; reflexivity.
Qed.

(** The invocation, by cases on its three steps. *)
Lemma invoke_cases messages options :
  invokeOpenAICompatibleChat env parseInt parseFloat StringToNumber post
    messages options =
  match createOpenAICompatibleClient env with
  | Throw e => ([], Throw (rethrow env e))
  | Ok client =>
      let payload := chatPayload env parseInt parseFloat messages options in
      ([(debug, "Calling OpenAI compatible API with model: "
                  ++ ToString (ChatPayload.model payload))],
       match post client "/chat/completions" payload with
       | Throw e => Throw (rethrow env e)
       | Ok data =>
           match extractContent StringToNumber data with
           | Ok s => Ok s
           | Throw e => Throw (rethrow env e)
           end
       end)
  end.
Proof.
  unfold invokeOpenAICompatibleChat.
  destruct (createOpenAICompatibleClient env) as [client|e]; simpl;
    [|reflexivity].
  destruct (post client _ _) as [data|e]; simpl; [|reflexivity].
  destruct (extractContent StringToNumber data); reflexivity.
Qed.

End ResponseParsing.


(** C9: when the invocation succeeds, the server answered the request
    with a body whose [choices[0].message.content] is a string, and the
    result is that string trimmed: it neither starts nor ends with white
    space, and differs from a content that does. *)
Theorem completion_is_trimmed env parseInt parseFloat StringToNumber post
    messages options logs s :
  invokeOpenAICompatibleChat env parseInt parseFloat StringToNumber post
    messages options = (logs, Ok s) ->
  exists client data c,
    post client "/chat/completions"
         (chatPayload env parseInt parseFloat messages options) = Ok data
    /\ completionContent data = VStr c
    /\ s = Str.trim c
    /\ Str.startsWithSpace s = false
    /\ Str.endsWithSpace s = false
    /\ (Str.startsWithSpace c = true \/ Str.endsWithSpace c = true -> s <> c).
Proof.
  rewrite invoke_cases.
  destruct (createOpenAICompatibleClient env) as [client|e]; [|discriminate].
  cbv zeta. intros H. injection H as _ H.
  destruct (post client _ _) as [data|e] eqn:P; [|discriminate].
  destruct (extractContent StringToNumber data) as [s'|e] eqn:X;
    [|discriminate].
  injection H as ->.
  destruct (extractContent_ok _ _ _ X) as (c & C & _ & ->).
  exists client, data, c. repeat split; auto.
  - apply StrFacts.trim_no_leading_space.
  - apply StrFacts.trim_no_trailing_space.
  - apply StrFacts.trim_changes_padded.
Qed.

Lemma completion_is_trimmed_witness :
  exists client data c,
    Sample.answering (Sample.completion (VStr "  Paris. ")) client
      "/chat/completions"
      (chatPayload Sample.localEnv Sample.hostNumber Sample.hostNumber
         Sample.helloTurns Options.empty)
    = Ok data
    /\ completionContent data = VStr c
    /\ "Paris." = Str.trim c
    /\ Str.startsWithSpace "Paris." = false
    /\ Str.endsWithSpace "Paris." = false
    /\ (Str.startsWithSpace c = true \/ Str.endsWithSpace c = true
        -> "Paris." <> c).
Proof.
  apply (completion_is_trimmed Sample.localEnv Sample.hostNumber
           Sample.hostNumber Sample.hostNumber
           (Sample.answering (Sample.completion (VStr "  Paris. ")))
           Sample.helloTurns Options.empty
           [(debug, "Calling OpenAI compatible API with model: llama3")]).
  reflexivity.
Defined.

(** C2, as the code has it: when the server answers with a body whose
    [choices[0].message.content] is not a non-empty string, the invocation
    returns no string; it throws a plain [Error], the only class of
    exception the module makes. *)
Theorem malformed_response_throws env parseInt parseFloat StringToNumber
    post messages options data :
  (forall client path payload, post client path payload = Ok data) ->
  (forall c, completionContent data = VStr c -> c = "") ->
  exists logs text,
    invokeOpenAICompatibleChat env parseInt parseFloat StringToNumber post
      messages options
    = (logs, Throw (Error text)).
Proof.
  intros P N. rewrite invoke_cases.
  destruct (createOpenAICompatibleClient env) as [client|e] eqn:C.
  - cbv zeta. rewrite P.
    destruct (extractContent StringToNumber data) as [s|e] eqn:X.
    + destruct (extractContent_ok _ _ _ X) as (c & E & NE & _).
      elim NE. exact (N c E).
    + do 2 eexists. rewrite rethrow_plain; [reflexivity|].
      exact (extractContent_throw _ _ _ X).
  - do 2 eexists. rewrite rethrow_plain; [reflexivity|].
    exact (createOpenAICompatibleClient_throw _ _ C).
Qed.

Lemma malformed_response_throws_witness :
  exists logs text,
    Sample.invokeLocal (Sample.answering (VObj [("id", VStr "cmpl-1")]))
      Sample.helloTurns Options.empty
    = (logs, Throw (Error text)).
Proof.
  apply (malformed_response_throws Sample.localEnv Sample.hostNumber
           Sample.hostNumber Sample.hostNumber
           (Sample.answering (VObj [("id", VStr "cmpl-1")]))
           Sample.helloTurns Options.empty
           (VObj [("id", VStr "cmpl-1")])).
  - reflexivity.
  - intros c H. discriminate H.
Defined.

(** C2, as stated, fails: for a body without [choices] the exception is a
    plain [Error], not a [MalformedResponseError], and it is the very
    exception thrown when the request could not be set up; for a body
    whose [choices] holds [null] the message does not mention the
    response at all. *)
Lemma malformed_response_not_distinct :
  Sample.invokeLocal (Sample.answering (VObj [("id", VStr "cmpl-1")]))
    Sample.helloTurns Options.empty
  = ([(debug, "Calling OpenAI compatible API with model: llama3")],
     Throw (Error "Error setting up request: Unexpected API response format"))
  /\ isMalformedResponseError
       (Error "Error setting up request: Unexpected API response format")
     = false
  /\ Sample.invokeLocal
       (Sample.failing (Error "Unexpected API response format"))
       Sample.helloTurns Options.empty
     = Sample.invokeLocal (Sample.answering (VObj [("id", VStr "cmpl-1")]))
         Sample.helloTurns Options.empty
  /\ snd (Sample.invokeLocal
            (Sample.answering (VObj [("choices", VArr [VNull])]))
            Sample.helloTurns Options.empty)
     = Throw (Error "Error setting up request: Cannot read properties of null (reading 'message')").
Proof. repeat split; reflexivity. Qed.


(** ** Shaping the input for the Anthropic target *)

Module AnthropicFacts.
Import Neutral.

Lemma roleIsSystem_encode m : roleIsSystem (encode m) = Ok (is_system m).
Proof. destruct m as [[] c]; reflexivity. Qed.

Lemma roleIsNotSystem_encode m :
  roleIsNotSystem (encode m) = Ok (negb (is_system m)).
Proof. destruct m as [[] c]; reflexivity. Qed.

Lemma toAnthropicMessage_encode m :
  toAnthropicMessage (encode m) = Ok (anthropicTurn m).
Proof. destruct m as [[] c]; reflexivity. Qed.

Lemma find_encode ms :
  js_find roleIsSystem (map encode ms) =
  Ok match List.find is_system ms with
     | Some m => encode m
     | None => VUndefined
     end.
Proof.
  induction ms as [|m ms IH]; [reflexivity|].
  cbn [map js_find find]. rewrite roleIsSystem_encode. cbn [bind].
  destruct (is_system m); [reflexivity|exact IH].
Qed.

Lemma filter_encode ms :
  js_filter roleIsNotSystem (map encode ms) =
  Ok (map encode (filter (fun m => negb (is_system m)) ms)).
Proof.
  induction ms as [|m ms IH]; [reflexivity|].
  cbn [map js_filter]. rewrite roleIsNotSystem_encode, IH. cbn [bind filter].
  destruct (is_system m); reflexivity.
Qed.

Lemma map_encode ms :
  js_map toAnthropicMessage (map encode ms) = Ok (map anthropicTurn ms).
Proof.
  induction ms as [|m ms IH]; [reflexivity|].
  cbn [map js_map]. rewrite toAnthropicMessage_encode, IH. reflexivity.
Qed.

Lemma first_is_message_encode m ms :
  first_is_message (map encode (m :: ms))
  = Ok (negb (String.eqb (content m) "")).
Proof. destruct m as [[] c]; reflexivity. Qed.

End AnthropicFacts.

(** C1, as the code has it: for a neutral message list that is empty or
    starts with a message that has a content, the system string is the
    content of the first System message (empty when there is none), every
    System message is left out of the turn list, and the other messages
    follow in their order, User as [human]. *)
Theorem anthropic_first_system_extracted (ms : list Neutral.Message) :
  Neutral.headHasContent ms = true ->
  anthropicPrompt (VArr (map Neutral.encode ms))
  = Ok (VStr (Neutral.firstSystem ms),
        VArr (map Neutral.anthropicTurn
                (filter (fun m => negb (Neutral.is_system m)) ms))).
Proof.
  destruct ms as [|m ms]; [reflexivity|].
  intros H. unfold anthropicPrompt.
  rewrite AnthropicFacts.first_is_message_encode.
  simpl in H. rewrite H. cbn [bind].
  rewrite AnthropicFacts.find_encode, AnthropicFacts.filter_encode.
  cbn [bind]. rewrite AnthropicFacts.map_encode. cbn [bind].
  unfold Neutral.firstSystem.
  destruct (find Neutral.is_system (m :: ms)) as [x|]; reflexivity.
Qed.

Lemma anthropic_first_system_extracted_witness :
  anthropicPrompt
    (VArr (map Neutral.encode
             [ {| Neutral.role := Neutral.User; Neutral.content := "hi" |};
               {| Neutral.role := Neutral.System; Neutral.content := "S" |};
               {| Neutral.role := Neutral.Assistant;
                  Neutral.content := "yes?" |} ]))
  = Ok (VStr "S",
        VArr [ message_of (VStr "human") (VStr "hi");
               message_of (VStr "assistant") (VStr "yes?") ]).
Proof.
  apply (anthropic_first_system_extracted
           [ {| Neutral.role := Neutral.User; Neutral.content := "hi" |};
             {| Neutral.role := Neutral.System; Neutral.content := "S" |};
             {| Neutral.role := Neutral.Assistant;
                Neutral.content := "yes?" |} ]).
  reflexivity.
Defined.

(** C1, as stated, fails: of two System messages only the first reaches
    the system string; the content of the second is dropped. *)
Lemma second_system_message_dropped :
  anthropicPrompt
    (VArr (map Neutral.encode
             [ {| Neutral.role := Neutral.System;
                  Neutral.content := "Be brief." |};
               {| Neutral.role := Neutral.User; Neutral.content := "hi" |};
               {| Neutral.role := Neutral.System;
                  Neutral.content := "Answer in French." |} ]))
  = Ok (VStr "Be brief.", VArr [ message_of (VStr "human") (VStr "hi") ])
  /\ Str.includes "Answer in French." "Be brief." = false.
Proof. split; reflexivity. Qed.

(** When the first message has no content, the list is taken for a list
    of bare strings and passed on as it is, System messages included. *)
Example head_without_content_passed_through :
  anthropicPrompt
    (VArr (map Neutral.encode
             [ {| Neutral.role := Neutral.User; Neutral.content := "" |};
               {| Neutral.role := Neutral.System;
                  Neutral.content := "S" |} ]))
  = Ok (VStr "",
        VArr [ message_of (VStr "user") (VStr "");
               message_of (VStr "system") (VStr "S") ]).
Proof. reflexivity. Qed.


(** C7, as the code has it: for the bare string ["hello"] the normaliser
    of the OpenAI-compatible target makes exactly one [user] turn and no
    system turn; the request for Anthropic carries the string itself as
    [messages], not wrapped in a turn, with the empty system string. *)
Theorem bare_string_requests env parseInt parseFloat options :
  convertToOpenAIMessages (VStr "hello")
  = Ok (VArr [message_of (VStr "user") (VStr "hello")])
  /\ exists req,
       anthropicRequest env parseInt parseFloat (VStr "hello") options
       = Ok req
       /\ AnthropicRequest.system req = VStr ""
       /\ AnthropicRequest.messages req = VStr "hello".
Proof.
  split; [reflexivity|]. eexists. split; [reflexivity|].
  split; reflexivity.
Qed.

(** C7, as stated, fails: the request for Anthropic holds no turn list,
    while the other target gets a list of one turn. *)
Lemma bare_string_not_a_turn_for_anthropic :
  anthropicRequest Sample.cloudEnv Sample.hostNumber Sample.hostNumber
    Sample.hello Options.empty
  = Ok {| AnthropicRequest.model := VStr "claude-3-7-sonnet-20250219";
          AnthropicRequest.max_tokens := VNum (Finite 64000 0);
          AnthropicRequest.temperature := VNum (Finite 2 (-1));
          AnthropicRequest.system := VStr "";
          AnthropicRequest.messages := VStr "hello" |}
  /\ turnList (VStr "hello") = None
  /\ (r <- convertToOpenAIMessages Sample.hello ;; Ok (turnList r))
     = Ok (Some [message_of (VStr "user") (VStr "hello")]).
Proof. repeat split; reflexivity. Qed.


(** On the Anthropic path a list of bare strings is passed on as it
    is. *)
Example strings_passed_through_for_anthropic :
  anthropicPrompt (VArr [VStr "hi"; VStr "hello"; VStr "bye"])
  = Ok (VStr "", VArr [VStr "hi"; VStr "hello"; VStr "bye"]).
Proof. reflexivity. Qed.

(** ** Structured and unrecognised inputs *)

(** The example of the specification: both fields present. *)
Example system_and_messages_normalised :
  convertToOpenAIMessages
    (VObj [("system", VStr "S");
           ("messages", VArr [message_of (VStr "user") (VStr "hi")])])
  = Ok (VArr [message_of (VStr "system") (VStr "S");
              message_of (VStr "user") (VStr "hi")]).
Proof. reflexivity. Qed.

(** C5 at the inputs where the code departs from it: with only one of
    [system] and [messages] the input is not taken for the structured
    shape; it is serialised whole into a single [user] message. *)
Theorem one_field_alone_is_stringified :
  convertToOpenAIMessages
    (VObj [("messages", VArr [message_of (VStr "user") (VStr "hi")])])
  = Ok (VArr [message_of (VStr "user")
                (VStr ("{" ++ JSON.quote "messages" ++ ":[{"
                         ++ JSON.quote "role" ++ ":" ++ JSON.quote "user"
                         ++ "," ++ JSON.quote "content" ++ ":"
                         ++ JSON.quote "hi" ++ "}]}"))])
  /\ convertToOpenAIMessages (VObj [("system", VStr "S")])
     = Ok (VArr [message_of (VStr "user")
                   (VStr ("{" ++ JSON.quote "system" ++ ":"
                            ++ JSON.quote "S" ++ "}"))]).
Proof. split; reflexivity. Qed.

(** The fallback on inputs of no recognised shape. *)
Example number_is_stringified :
  convertToOpenAIMessages (VNum (Finite 5 0))
  = Ok (VArr [message_of (VStr "user") (VStr "5")])
  /\ convertToOpenAIMessages (VObj [])
     = Ok (VArr [message_of (VStr "user") (VStr "{}")])
  /\ convertToOpenAIMessages (VBool true)
     = Ok (VArr [message_of (VStr "user") (VStr "true")]).
Proof. repeat split; reflexivity. Qed.

(** Numbers, booleans and the objects that have neither a role with a
    content nor a system with messages are serialised into one [user]
    message. *)
Lemma fallback_stringifies (v : value) :
  match v with
  | VBool _ | VNum _ => True
  | VObj ps =>
      truthy (lookup "role" ps) && truthy (lookup "content" ps) = false
      /\ truthy (lookup "system" ps) && truthy (lookup "messages" ps) = false
  | _ => False
  end ->
  convertToOpenAIMessages v
  = Ok (VArr [message_of (VStr "user") (JSON.stringify v)]).
Proof.
  destruct v as [| |b|n|s|l|ps]; try contradiction; try reflexivity.
  intros [R S]. unfold convertToOpenAIMessages. cbn [get bind].
  destruct (truthy (lookup "role" ps)) eqn:TR; cbn [bind andb] in *.
  - rewrite R. cbn [get bind].
    destruct (truthy (lookup "system" ps)) eqn:TS; cbn [bind andb] in *.
    + rewrite S. reflexivity.
    + rewrite TS. reflexivity.
  - rewrite TR. cbn [get bind].
    destruct (truthy (lookup "system" ps)) eqn:TS; cbn [bind andb] in *.
    + rewrite S. reflexivity.
    + rewrite TS. reflexivity.
Qed.

(** C6 at the inputs where the code departs from it: on [null], on
    [undefined], on an array that starts with [null] and on a structured
    input whose list of turns holds [null], the normaliser throws a
    [TypeError] instead of falling back. *)
Theorem null_input_throws :
  convertToOpenAIMessages VNull
  = Throw (TypeError "Cannot read properties of null (reading 'role')")
  /\ convertToOpenAIMessages VUndefined
     = Throw (TypeError
                "Cannot read properties of undefined (reading 'role')")
  /\ convertToOpenAIMessages (VArr [VNull; VStr "hi"])
     = Throw (TypeError "Cannot read properties of null (reading 'role')")
  /\ convertToOpenAIMessages
       (VObj [("system", VStr "S"); ("messages", VArr [VNull])])
     = Throw (TypeError "Cannot read properties of null (reading 'role')").
Proof. repeat split; reflexivity. Qed.

(** ** Provider selection *)

(** C4: the provider is the first present of the override, the pinned
    provider, the OpenAI-compatible target when a base URL is configured
    and Anthropic when a credential is; with none of them it is the
    OpenAI-compatible target, and then, and only then, the warning is
    logged.  The selection never throws. *)
Theorem provider_precedence env (options : Options.t) :
  snd (resolveProvider env options)
  = Ok (firstPresent
          [ Options.provider options;
            env_value (Env.AI_PROVIDER env);
            if present (Env.OPENAI_API_BASE_URL env)
            then VStr AI_PROVIDER.OPENAI_COMPATIBLE else VUndefined;
            if present (Env.ANTHROPIC_API_KEY env)
            then VStr AI_PROVIDER.ANTHROPIC else VUndefined ]
          (VStr AI_PROVIDER.OPENAI_COMPATIBLE))
  /\ (In defaultingWarning (fst (resolveProvider env options))
      <-> truthy (Options.provider options) = false
          /\ present (Env.AI_PROVIDER env) = false
          /\ present (Env.OPENAI_API_BASE_URL env) = false
          /\ present (Env.ANTHROPIC_API_KEY env) = false).
Proof.
  unfold resolveProvider, determineAIProvider, present, firstPresent.
  destruct (truthy (Options.provider options)) eqn:O; simpl.
  { split; [reflexivity|]. split; [intros []|intros [H _]; discriminate]. }
  destruct (truthy (env_value (Env.AI_PROVIDER env))) eqn:P; simpl.
  { split; [reflexivity|].
    split; [intros []|intros (_ & H & _); discriminate]. }
  destruct (truthy (env_value (Env.OPENAI_API_BASE_URL env))) eqn:B; simpl.
  { split; [reflexivity|]. split.
    - intros [H|[]]. discriminate H.
    - intros (_ & _ & H & _). discriminate. }
  destruct (truthy (env_value (Env.ANTHROPIC_API_KEY env))) eqn:K; simpl.
  { split; [reflexivity|]. split.
    - intros [H|[]]. discriminate H.
    - intros (_ & _ & _ & H). discriminate. }
  split; [reflexivity|]. split; [auto|].
  intros _. left. reflexivity.
Qed.

(** An endpoint wins over a credential; a credential alone selects
    Anthropic; with nothing configured the default is taken, with the
    warning. *)
Example provider_selection_samples :
  resolveProvider Sample.bothEnv Options.empty
  = ([(info, "Using OpenAI compatible API at http://localhost:11434/v1")],
     Ok (VStr "openai_compatible"))
  /\ resolveProvider Sample.cloudEnv Options.empty
     = ([(info, "Using Anthropic API")], Ok (VStr "anthropic"))
  /\ resolveProvider Sample.emptyEnv Options.empty
     = ([defaultingWarning], Ok (VStr "openai_compatible"))
  /\ resolveProvider Sample.bothEnv Sample.anthropicOptions
     = ([], Ok (VStr "anthropic")).
Proof. repeat split; reflexivity. Qed.

(** ** Defaults of the request *)

(** C10: an option [temperature] or [maxTokens] that is falsy, [0] in
    particular, does not reach the request of either provider; the
    request carries the number parsed from the environment variable, or
    from the built-in default when the variable is unset or empty. *)
Theorem falsy_options_replaced_by_defaults env parseInt parseFloat
    (messages : value) (options : Options.t) :
  (truthy (Options.temperature options) = false ->
   let default :=
     VNum (parseFloat (env_or (Env.TEMPERATURE env) "0.2")) in
   ChatPayload.temperature
     (chatPayload env parseInt parseFloat messages options) = default
   /\ forall req,
        anthropicRequest env parseInt parseFloat messages options = Ok req ->
        AnthropicRequest.temperature req = default)
  /\ (truthy (Options.maxTokens options) = false ->
      let default :=
        VNum (parseInt (env_or (Env.MAX_TOKENS env) "64000")) in
      ChatPayload.max_tokens
        (chatPayload env parseInt parseFloat messages options) = default
      /\ forall req,
           anthropicRequest env parseInt parseFloat messages options = Ok req ->
           AnthropicRequest.max_tokens req = default).
Proof.
  split; intros F; cbv zeta; (split; [simpl; unfold js_or; rewrite F; reflexivity|]);
    intros req; unfold anthropicRequest;
    destruct (anthropicPrompt messages) as [[sys pm]|e]; simpl;
    try discriminate; intros [= <-]; simpl; unfold js_or; rewrite F;
    reflexivity.
Qed.

Lemma falsy_options_replaced_by_defaults_witness :
  (ChatPayload.temperature
     (chatPayload Sample.localEnv Sample.hostNumber Sample.hostNumber
        Sample.helloTurns Sample.zeroOptions)
   = VNum (Finite 2 (-1))
   /\ ChatPayload.max_tokens
        (chatPayload Sample.localEnv Sample.hostNumber Sample.hostNumber
           Sample.helloTurns Sample.zeroOptions)
      = VNum (Finite 64000 0))
  /\ exists req,
       anthropicRequest Sample.localEnv Sample.hostNumber Sample.hostNumber
         Sample.helloTurns Sample.zeroOptions = Ok req
       /\ AnthropicRequest.temperature req = VNum (Finite 2 (-1))
       /\ AnthropicRequest.max_tokens req = VNum (Finite 64000 0).
Proof.
  destruct (falsy_options_replaced_by_defaults Sample.localEnv
              Sample.hostNumber Sample.hostNumber
              Sample.helloTurns Sample.zeroOptions)
    as [T K].
  destruct (T eq_refl) as [T1 T2]. destruct (K eq_refl) as [K1 K2].
  split; [split; [exact T1|exact K1]|].
  eexists. split; [reflexivity|].
  split; [apply T2|apply K2]; reflexivity.
Defined.

(** ** Reporting failures *)

(** C3, as stated, fails: a failure with status 429 whose body names the
    model is reported as a model error; the message that reaches the
    caller no longer holds the status, and the exception thrown carries no
    response. *)
Lemma rate_limit_reported_as_model_error :
  handleOpenAICompatibleError Sample.localEnv
    (rethrow Sample.localEnv Sample.tooManyRequests)
  = "Model error: The requested model 'llama3' may not be available. Please check that you have the correct model name."
  /\ Str.includes "429"
       (handleOpenAICompatibleError Sample.localEnv
          (rethrow Sample.localEnv Sample.tooManyRequests)) = false
  /\ snd (invokeAIModel Sample.localEnv Sample.hostNumber Sample.hostNumber
            Sample.hostNumber (Sample.failing Sample.tooManyRequests)
            Sample.throttled Sample.hello Options.empty)
     = Throw (mkError "Error"
                "Model error: The requested model 'llama3' may not be available. Please check that you have the correct model name."
                None false).
Proof. repeat split; reflexivity. Qed.

(** * Further properties of the modules *)

(** ** The OpenAI-compatible client *)

(** The client is made for the configured endpoint, always announces
    JSON, and sends an [Authorization] header exactly when
    [OPENAI_API_KEY] is set to a non-empty string other than
    ["not-needed"]; the header then holds that key as a bearer token. *)
Theorem authorization_header_iff_key env client v :
  createOpenAICompatibleClient env = Ok client ->
  Env.OPENAI_API_BASE_URL env = Some (Client.baseURL client)
  /\ Client.baseURL client <> ""
  /\ In ("Content-Type", "application/json") (Client.headers client)
  /\ (In ("Authorization", v) (Client.headers client)
      <-> exists key,
            Env.OPENAI_API_KEY env = Some key
            /\ key <> "" /\ key <> "not-needed" /\ v = "Bearer " ++ key).
Proof.
  unfold createOpenAICompatibleClient, getOpenAICompatibleConfig.
  destruct (Env.OPENAI_API_BASE_URL env) as [url|]; [|discriminate].
  destruct (String.eqb url "") eqn:U; [discriminate|].
  cbn [bind]. intros [= <-]. cbn [Client.baseURL Client.headers].
  apply String.eqb_neq in U.
  split; [reflexivity|]. split; [exact U|]. split; [left; reflexivity|].
  unfold env_or.
  destruct (Env.OPENAI_API_KEY env) as [key|].
  - destruct (String.eqb key "") eqn:K.
    + cbn. split.
      * intros [H|[]]. discriminate H.
      * intros (k & [= <-] & NE & _). apply String.eqb_eq in K. contradiction.
    + rewrite K. cbn [negb andb].
      destruct (String.eqb key "not-needed") eqn:N; cbn [negb]; split.
      * intros [H|[]]. discriminate H.
      * intros (k & [= <-] & _ & NN & _).
        apply String.eqb_eq in N. contradiction.
      * intros [H|[H|[]]]; [discriminate H|]. injection H as <-.
        exists key. apply String.eqb_neq in K, N. auto.
      * intros (k & [= <-] & _ & _ & ->). right. left. reflexivity.
  - cbn. split.
    + intros [H|[]]. discriminate H.
    + intros (k & H & _). discriminate H.
Qed.

Lemma authorization_header_iff_key_witness :
  In ("Authorization", "Bearer sk-1")
     [("Content-Type", "application/json"); ("Authorization", "Bearer sk-1")]
  <-> exists key,
        Some "sk-1" = Some key
        /\ key <> "" /\ key <> "not-needed" /\ "Bearer sk-1" = "Bearer " ++ key.
Proof.
  apply (authorization_header_iff_key
           {| Env.OPENAI_API_BASE_URL := Some "http://localhost:11434/v1";
              Env.OPENAI_API_KEY := Some "sk-1";
              Env.ANTHROPIC_API_KEY := None;
              Env.AI_PROVIDER := None;
              Env.MODEL := None;
              Env.MAX_TOKENS := None;
              Env.TEMPERATURE := None |}
           {| Client.baseURL := "http://localhost:11434/v1";
              Client.headers :=
                [("Content-Type", "application/json");
                 ("Authorization", "Bearer sk-1")] |}
           "Bearer sk-1").
  reflexivity.
Defined.

Lemma rethrow_is_Error env e : exists text, rethrow env e = Error text.
Proof.
  unfold rethrow. destruct (response e) as [[status data]|]; [eauto|].
  destruct (request e); eauto.
Qed.

(** Without a base URL the invocation fails before anything is logged or
    sent: whatever the transport would do, the result is the same error,
    which names the missing variable. *)
Theorem missing_base_url_fails_before_request env parseInt parseFloat
    StringToNumber post messages options :
  present (Env.OPENAI_API_BASE_URL env) = false ->
  invokeOpenAICompatibleChat env parseInt parseFloat StringToNumber post
    messages options
  = ([], Throw (Error "Error setting up request: OPENAI_API_BASE_URL environment variable is missing. Set it to use OpenAI compatible API (e.g., http://localhost:11434/v1).")).
Proof.
  unfold present, env_value. intros P. rewrite invoke_cases.
  unfold createOpenAICompatibleClient, getOpenAICompatibleConfig.
  destruct (Env.OPENAI_API_BASE_URL env) as [url|]; [|reflexivity].
  cbn in P. apply negb_false_iff in P. rewrite P. reflexivity.
Qed.

Lemma missing_base_url_fails_before_request_witness :
  invokeOpenAICompatibleChat Sample.cloudEnv Sample.hostNumber
    Sample.hostNumber Sample.hostNumber
    (Sample.answering (Sample.completion (VStr "hi")))
    Sample.helloTurns Options.empty
  = ([], Throw (Error "Error setting up request: OPENAI_API_BASE_URL environment variable is missing. Set it to use OpenAI compatible API (e.g., http://localhost:11434/v1).")).
Proof.
  apply (missing_base_url_fails_before_request Sample.cloudEnv).
  reflexivity.
Defined.

(** Whatever goes wrong, the exception that leaves the invocation is one
    made by [new Error]: it has the name [Error] and carries neither the
    response nor the request of the HTTP client. *)
Theorem client_throws_only_new_errors env parseInt parseFloat
    StringToNumber post messages options logs e :
  invokeOpenAICompatibleChat env parseInt parseFloat StringToNumber post
    messages options = (logs, Throw e) ->
  exists text, e = Error text.
Proof.
  rewrite invoke_cases.
  destruct (createOpenAICompatibleClient env) as [client|e0].
  - cbv zeta. intros [= _ H]. revert H.
    destruct (post client _ _) as [data|e1].
    + destruct (extractContent StringToNumber data) as [s|e2];
        [discriminate|].
      intros [= <-]. destruct (rethrow_is_Error env e2) as [t ->]. eauto.
    + intros [= <-]. destruct (rethrow_is_Error env e1) as [t ->]. eauto.
  - intros [= _ <-]. destruct (rethrow_is_Error env e0) as [t ->]. eauto.
Qed.

Lemma client_throws_only_new_errors_witness :
  exists text,
    Error ("API error (429): {" ++ JSON.quote "error" ++ ":"
             ++ JSON.quote "slow down" ++ "}")
    = Error text.
Proof.
  apply (client_throws_only_new_errors Sample.localEnv Sample.hostNumber
           Sample.hostNumber Sample.hostNumber
           (Sample.failing Sample.slowDown) Sample.helloTurns Options.empty
           [(debug, "Calling OpenAI compatible API with model: llama3")]).
  reflexivity.
Defined.

(** ** The unified invocation *)

Section UnifiedInvocation.

Variable env : Env.t.
Variables parseInt parseFloat StringToNumber : string -> number.
Variable post : Client.t -> string -> ChatPayload.t -> result value.
Variable create : AnthropicClient.t -> AnthropicRequest.t -> result value.

Lemma resolveProvider_ok options :
  exists l0 p, resolveProvider env options = (l0, Ok p) /\ truthy p = true.
Proof.
  unfold resolveProvider, determineAIProvider.
  destruct (truthy (Options.provider options)) eqn:O;
    [cbn; do 2 eexists; split; [reflexivity|assumption]|].
  destruct (truthy (env_value (Env.AI_PROVIDER env))) eqn:P;
    [cbn; do 2 eexists; split; [reflexivity|assumption]|].
  destruct (truthy (env_value (Env.OPENAI_API_BASE_URL env)));
    [cbn; do 2 eexists; split; reflexivity|].
  destruct (truthy (env_value (Env.ANTHROPIC_API_KEY env)));
    cbn; do 2 eexists; split; reflexivity.
Qed.

(** The invocation on the OpenAI-compatible path, step by step. *)
Lemma invokeAIModel_openai messages options l0 p :
  resolveProvider env options = (l0, Ok p) ->
  is_string p AI_PROVIDER.OPENAI_COMPATIBLE = true ->
  invokeAIModel env parseInt parseFloat StringToNumber post create
    messages options =
  match convertToOpenAIMessages messages with
  | Throw e =>
      ((l0 ++ [(error_level, handleOpenAICompatibleError env e)])%list,
       Throw (Error (handleOpenAICompatibleError env e)))
  | Ok m =>
      match invokeOpenAICompatibleChat env parseInt parseFloat
              StringToNumber post m options with
      | (l1, Ok s) => ((l0 ++ l1)%list, Ok (VStr s))
      | (l1, Throw e) =>
          ((l0 ++ l1 ++ [(error_level, handleOpenAICompatibleError env e)])%list,
           Throw (Error (handleOpenAICompatibleError env e)))
      end
  end.
Proof.
  intros R P. unfold invokeAIModel. rewrite R. cbn [bindM]. rewrite P.
  destruct (convertToOpenAIMessages messages) as [m|e]; cbn;
    [|reflexivity].
  destruct (invokeOpenAICompatibleChat _ _ _ _ _ m options) as [l1 [s|e]];
    cbn; rewrite ?app_nil_r; reflexivity.
Qed.

(** The invocation on the Anthropic path, step by step. *)
Lemma invokeAIModel_anthropic messages options l0 p :
  resolveProvider env options = (l0, Ok p) ->
  is_string p AI_PROVIDER.OPENAI_COMPATIBLE = false ->
  is_string p AI_PROVIDER.ANTHROPIC = true ->
  invokeAIModel env parseInt parseFloat StringToNumber post create
    messages options =
  match (client <- createAnthropicClient env ;;
         req <- anthropicRequest env parseInt parseFloat messages options ;;
         response <- create client req ;;
         firstBlockText response) with
  | Ok v => (l0, Ok v)
  | Throw e =>
      ((l0 ++ [(error_level,
                ("Anthropic API error: " ++ message e)%string)])%list,
       Throw (Error ("Anthropic API error: " ++ message e)))
  end.
Proof.
  intros R P A. unfold invokeAIModel, firstBlockText.
  rewrite R. cbn [bindM]. rewrite P, A.
  destruct (createAnthropicClient env) as [client|e]; cbn; [|reflexivity].
  destruct (anthropicRequest _ _ _ messages options) as [req|e]; cbn;
    [|reflexivity].
  destruct (create client req) as [response|e]; cbn; [|reflexivity].
  destruct (get response "content") as [content|e]; cbn; [|reflexivity].
  destruct (get content "0") as [block|e]; cbn; [|reflexivity].
  destruct (get block "text") as [v|e]; cbn; rewrite ?app_nil_r;
    reflexivity.
Qed.

(** The invocation with a provider that is neither of the two. *)
Lemma invokeAIModel_unsupported messages options l0 p :
  resolveProvider env options = (l0, Ok p) ->
  is_string p AI_PROVIDER.OPENAI_COMPATIBLE = false ->
  is_string p AI_PROVIDER.ANTHROPIC = false ->
  invokeAIModel env parseInt parseFloat StringToNumber post create
    messages options =
  ((l0 ++ [(error_level,
            ("Anthropic API error: Unsupported AI provider: "
               ++ ToString p)%string)])%list,
   Throw (Error ("Anthropic API error: Unsupported AI provider: "
                   ++ ToString p))).
Proof.
  intros R P A. unfold invokeAIModel.
  rewrite R. cbn [bindM]. rewrite P, A. reflexivity.
Qed.

End UnifiedInvocation.

Lemma anthropic_is_not_openai p :
  is_string p AI_PROVIDER.ANTHROPIC = true ->
  is_string p AI_PROVIDER.OPENAI_COMPATIBLE = false.
Proof.
  destruct p; try discriminate. cbn. intros H.
  apply String.eqb_eq in H. subst. reflexivity.
Qed.

(** C3, as the code has it: a failure with status 429 gets no kind of its
    own and no cause.  The OpenAI-compatible client turns it into an
    [Error] whose message holds the status and the serialised body; when
    that message mentions none of "Network error", "401", "403" and
    "model", the classifier returns it after "Error communicating with AI
    service: ", and that is the message of the [Error] the unified
    invocation throws.  A failure [e] of the Anthropic client is thrown
    again as an [Error] with the message "Anthropic API error: " and the
    message of [e].  Both hold however the provider was chosen. *)
Theorem rate_limit_reported_as_text env parseInt parseFloat StringToNumber
    post create messages options l0 p :
  resolveProvider env options = (l0, Ok p) ->
  (forall m client e data,
     createOpenAICompatibleClient env = Ok client ->
     post client "/chat/completions"
          (chatPayload env parseInt parseFloat m options) = Throw e ->
     response e = Some (429%Z, data) ->
     let text := "API error (429): " ++ ToString (JSON.stringify data) in
     snd (invokeOpenAICompatibleChat env parseInt parseFloat StringToNumber
            post m options)
     = Throw (Error text)
     /\ (Str.includes "Network error" text = false ->
         Str.includes "401" text = false ->
         Str.includes "403" text = false ->
         Str.includes "model" text = false ->
         handleOpenAICompatibleError env (Error text)
         = "Error communicating with AI service: " ++ text
         /\ (is_string p AI_PROVIDER.OPENAI_COMPATIBLE = true ->
             convertToOpenAIMessages messages = Ok m ->
             snd (invokeAIModel env parseInt parseFloat StringToNumber post
                    create messages options)
             = Throw (Error ("Error communicating with AI service: "
                               ++ text)))))
  /\ (forall client req e,
        is_string p AI_PROVIDER.ANTHROPIC = true ->
        createAnthropicClient env = Ok client ->
        anthropicRequest env parseInt parseFloat messages options = Ok req ->
        create client req = Throw e ->
        invokeAIModel env parseInt parseFloat StringToNumber post create
          messages options
        = ((l0 ++ [(error_level,
                    ("Anthropic API error: " ++ message e)%string)])%list,
           Throw (Error ("Anthropic API error: " ++ message e)))).
Proof.
  intros R. split.
  - intros m client e data C F RS text.
    assert (I : snd (invokeOpenAICompatibleChat env parseInt parseFloat
                       StringToNumber post m options)
                = Throw (Error text)).
    { rewrite invoke_cases, C. cbv zeta. rewrite F.
      unfold rethrow. rewrite RS. reflexivity. }
    split; [exact I|]. intros N A1 A3 Md.
    assert (H : handleOpenAICompatibleError env (Error text)
                = "Error communicating with AI service: " ++ text).
    { unfold handleOpenAICompatibleError. cbn [message Error].
      rewrite N, A1, A3, Md. reflexivity. }
    split; [exact H|]. intros P Cv.
    rewrite (invokeAIModel_openai _ _ _ _ _ _ _ _ _ _ R P), Cv.
    destruct (invokeOpenAICompatibleChat _ _ _ _ _ m options)
      as [l1 [s|e']]; cbn [snd] in I; [discriminate|].
    injection I as ->. cbn [snd]. rewrite H. reflexivity.
  - intros client req e A C Q F.
    rewrite (invokeAIModel_anthropic _ _ _ _ _ _ _ _ _ _ R
               (anthropic_is_not_openai _ A) A).
    rewrite C. cbn [bind]. rewrite Q. cbn [bind]. rewrite F. reflexivity.
Qed.

Lemma rate_limit_reported_as_text_witness :
  (snd (Sample.invokeLocal (Sample.failing Sample.slowDown)
          Sample.helloTurns Options.empty)
   = Throw (Error ("API error (429): {" ++ JSON.quote "error" ++ ":"
                     ++ JSON.quote "slow down" ++ "}"))
   /\ handleOpenAICompatibleError Sample.localEnv
        (Error ("API error (429): {" ++ JSON.quote "error" ++ ":"
                  ++ JSON.quote "slow down" ++ "}"))
      = "Error communicating with AI service: API error (429): {"
          ++ JSON.quote "error" ++ ":" ++ JSON.quote "slow down" ++ "}"
   /\ snd (invokeAIModel Sample.localEnv Sample.hostNumber Sample.hostNumber
             Sample.hostNumber (Sample.failing Sample.slowDown)
             Sample.throttled Sample.hello Options.empty)
      = Throw (Error ("Error communicating with AI service: API error (429): {"
                        ++ JSON.quote "error" ++ ":"
                        ++ JSON.quote "slow down" ++ "}")))
  /\ invokeAIModel Sample.cloudEnv Sample.hostNumber Sample.hostNumber
       Sample.hostNumber (Sample.failing Sample.slowDown)
       Sample.throttled Sample.hello Options.empty
     = ([(info, "Using Anthropic API");
         (error_level, "Anthropic API error: 429 rate limit exceeded")],
        Throw (Error "Anthropic API error: 429 rate limit exceeded")).
Proof.
  destruct (rate_limit_reported_as_text Sample.localEnv Sample.hostNumber
              Sample.hostNumber Sample.hostNumber
              (Sample.failing Sample.slowDown) Sample.throttled
              Sample.hello Options.empty
              [(info, "Using OpenAI compatible API at http://localhost:11434/v1")]
              (VStr "openai_compatible") eq_refl)
    as [G _].
  destruct (rate_limit_reported_as_text Sample.cloudEnv Sample.hostNumber
              Sample.hostNumber Sample.hostNumber
              (Sample.failing Sample.slowDown) Sample.throttled
              Sample.hello Options.empty
              [(info, "Using Anthropic API")] (VStr "anthropic") eq_refl)
    as [_ A].
  split.
  - destruct (G Sample.helloTurns
                {| Client.baseURL := "http://localhost:11434/v1";
                   Client.headers := [("Content-Type", "application/json")] |}
                Sample.slowDown (VObj [("error", VStr "slow down")])
                eq_refl eq_refl eq_refl) as [I H].
    split; [exact I|].
    destruct (H eq_refl eq_refl eq_refl eq_refl) as [H1 H2].
    split; [exact H1|]. apply H2; reflexivity.
  - eapply (A _ _ Sample.rateLimitError); reflexivity.
Defined.

Lemma lastEntry_app l x : lastEntry (l ++ [x])%list = Some x.
Proof. unfold lastEntry. rewrite map_app. apply last_last. Qed.

Lemma createOpenAICompatibleClient_ok env url :
  Env.OPENAI_API_BASE_URL env = Some url -> url <> "" ->
  exists client, createOpenAICompatibleClient env = Ok client.
Proof.
  intros U N. unfold createOpenAICompatibleClient, getOpenAICompatibleConfig.
  rewrite U. apply String.eqb_neq in N. rewrite N. cbn. eauto.
Qed.

Lemma invoke_ok_trimmed env parseInt parseFloat StringToNumber post
    messages options logs s :
  invokeOpenAICompatibleChat env parseInt parseFloat StringToNumber post
    messages options = (logs, Ok s) ->
  Str.startsWithSpace s = false /\ Str.endsWithSpace s = false.
Proof.
  rewrite invoke_cases.
  destruct (createOpenAICompatibleClient env) as [client|e]; [|discriminate].
  cbv zeta. intros [= _ H]. revert H.
  destruct (post client _ _) as [data|e]; [|discriminate].
  destruct (extractContent StringToNumber data) as [s'|e] eqn:X;
    [|discriminate].
  intros [= ->]. destruct (extractContent_ok _ _ _ X) as (c & _ & _ & ->).
  split; [apply StrFacts.trim_no_leading_space
         |apply StrFacts.trim_no_trailing_space].
Qed.

(** A request that is sent and never answered reaches the caller of the
    unified invocation as a connection error that names the configured
    endpoint. *)
Theorem unanswered_request_is_connection_error env parseInt parseFloat
    StringToNumber post create messages options l0 p m url e :
  resolveProvider env options = (l0, Ok p) ->
  is_string p AI_PROVIDER.OPENAI_COMPATIBLE = true ->
  convertToOpenAIMessages messages = Ok m ->
  Env.OPENAI_API_BASE_URL env = Some url -> url <> "" ->
  (forall client path payload, post client path payload = Throw e) ->
  response e = None -> request e = true ->
  snd (invokeAIModel env parseInt parseFloat StringToNumber post create
         messages options)
  = Throw (Error ("Connection error: Unable to reach the AI service at "
                    ++ url
                    ++ ". Please check that your server is running and the URL is correct.")).
Proof.
  intros R P C U N F RS RQ.
  rewrite (invokeAIModel_openai _ _ _ _ _ _ _ _ _ _ R P), C.
  rewrite invoke_cases.
  destruct (createOpenAICompatibleClient_ok env url U N) as [client ->].
  cbv zeta. rewrite F. unfold rethrow. rewrite RS, RQ.
  cbn [snd]. unfold handleOpenAICompatibleError. rewrite U. reflexivity.
Qed.

Lemma unanswered_request_is_connection_error_witness :
  snd (invokeAIModel Sample.localEnv Sample.hostNumber Sample.hostNumber
         Sample.hostNumber
         (Sample.failing (mkError "AxiosError" "timeout of 1000ms exceeded"
                            None true))
         Sample.throttled Sample.hello Options.empty)
  = Throw (Error ("Connection error: Unable to reach the AI service at "
                    ++ "http://localhost:11434/v1"
                    ++ ". Please check that your server is running and the URL is correct.")).
Proof.
  apply (unanswered_request_is_connection_error Sample.localEnv
           Sample.hostNumber Sample.hostNumber Sample.hostNumber
           (Sample.failing (mkError "AxiosError" "timeout of 1000ms exceeded"
                              None true))
           Sample.throttled Sample.hello Options.empty
           [(info, "Using OpenAI compatible API at http://localhost:11434/v1")]
           (VStr "openai_compatible") Sample.helloTurns
           "http://localhost:11434/v1"
           (mkError "AxiosError" "timeout of 1000ms exceeded" None true));
    try reflexivity.
  discriminate.
Defined.

(** An answer with status 401 or 403 reaches the caller as an
    authentication error, unless the serialised body happens to contain
    "Network error", which is tested first. *)
Theorem unauthorized_is_authentication_error env parseInt parseFloat
    StringToNumber post create messages options l0 p m url e status data :
  resolveProvider env options = (l0, Ok p) ->
  is_string p AI_PROVIDER.OPENAI_COMPATIBLE = true ->
  convertToOpenAIMessages messages = Ok m ->
  Env.OPENAI_API_BASE_URL env = Some url -> url <> "" ->
  (forall client path payload, post client path payload = Throw e) ->
  response e = Some (status, data) ->
  status = 401%Z \/ status = 403%Z ->
  Str.includes "Network error" (ToString (JSON.stringify data)) = false ->
  snd (invokeAIModel env parseInt parseFloat StringToNumber post create
         messages options)
  = Throw (Error "Authentication error: The API key provided is invalid or missing. Please check your OPENAI_API_KEY.").
Proof.
  intros R P C U N F RS ST NE.
  rewrite (invokeAIModel_openai _ _ _ _ _ _ _ _ _ _ R P), C.
  rewrite invoke_cases.
  destruct (createOpenAICompatibleClient_ok env url U N) as [client ->].
  cbv zeta. rewrite F. unfold rethrow. rewrite RS.
  cbn [snd]. unfold handleOpenAICompatibleError.
  destruct ST as [-> | ->]; cbn; rewrite NE, ?orb_true_r; reflexivity.
Qed.

Lemma unauthorized_is_authentication_error_witness :
  snd (invokeAIModel Sample.localEnv Sample.hostNumber Sample.hostNumber
         Sample.hostNumber
         (Sample.failing (mkError "AxiosError"
                            "Request failed with status code 401"
                            (Some (401%Z, VObj [("error", VStr "bad key")]))
                            true))
         Sample.throttled Sample.hello Options.empty)
  = Throw (Error "Authentication error: The API key provided is invalid or missing. Please check your OPENAI_API_KEY.").
Proof.
  apply (unauthorized_is_authentication_error Sample.localEnv
           Sample.hostNumber Sample.hostNumber Sample.hostNumber
           (Sample.failing (mkError "AxiosError"
                              "Request failed with status code 401"
                              (Some (401%Z, VObj [("error", VStr "bad key")]))
                              true))
           Sample.throttled Sample.hello Options.empty
           [(info, "Using OpenAI compatible API at http://localhost:11434/v1")]
           (VStr "openai_compatible") Sample.helloTurns
           "http://localhost:11434/v1"
           (mkError "AxiosError" "Request failed with status code 401"
              (Some (401%Z, VObj [("error", VStr "bad key")])) true)
           401%Z (VObj [("error", VStr "bad key")]));
    try reflexivity.
  - discriminate.
  - left. reflexivity.
Defined.

(** Whenever the unified invocation fails, what it throws is made by
    [new Error], and its message is the one logged last, at the error
    level: no failure leaves unlogged, and none keeps the class or the
    response of the original exception. *)
Theorem invocation_failure_is_logged env parseInt parseFloat StringToNumber
    post create messages options logs e :
  invokeAIModel env parseInt parseFloat StringToNumber post create
    messages options = (logs, Throw e) ->
  exists text,
    e = Error text /\ lastEntry logs = Some (error_level, text).
Proof.
  destruct (resolveProvider_ok env options) as (l0 & p & R & _).
  destruct (is_string p AI_PROVIDER.OPENAI_COMPATIBLE) eqn:P.
  - rewrite (invokeAIModel_openai _ _ _ _ _ _ _ _ _ _ R P).
    destruct (convertToOpenAIMessages messages) as [m|e0].
    + destruct (invokeOpenAICompatibleChat _ _ _ _ _ m options)
        as [l1 [s|e1]]; [discriminate|].
      intros [= <- <-]. eexists. split; [reflexivity|].
      rewrite app_assoc. apply lastEntry_app.
    + intros [= <- <-]. eexists. split; [reflexivity|apply lastEntry_app].
  - destruct (is_string p AI_PROVIDER.ANTHROPIC) eqn:A.
    + rewrite (invokeAIModel_anthropic _ _ _ _ _ _ _ _ _ _ R P A).
      destruct (bind _ _) as [v|e0]; [discriminate|].
      intros [= <- <-]. eexists. split; [reflexivity|apply lastEntry_app].
    + rewrite (invokeAIModel_unsupported _ _ _ _ _ _ _ _ _ _ R P A).
      intros [= <- <-]. eexists. split; [reflexivity|apply lastEntry_app].
Qed.

Lemma invocation_failure_is_logged_witness :
  exists text,
    Error "Anthropic API error: 429 rate limit exceeded" = Error text
    /\ lastEntry [(info, "Using Anthropic API");
                  (error_level,
                   "Anthropic API error: 429 rate limit exceeded")]
       = Some (error_level, text).
Proof.
  apply (invocation_failure_is_logged Sample.cloudEnv Sample.hostNumber
           Sample.hostNumber Sample.hostNumber
           (Sample.failing Sample.slowDown) Sample.throttled Sample.hello
           Options.empty).
  reflexivity.
Defined.

(** A provider other than the two known ones is refused whatever the
    input and the transports are; the refusal is worded as an error of
    the Anthropic API. *)
Theorem unsupported_provider_refused env parseInt parseFloat StringToNumber
    post create messages options l0 p :
  resolveProvider env options = (l0, Ok p) ->
  is_string p AI_PROVIDER.OPENAI_COMPATIBLE = false ->
  is_string p AI_PROVIDER.ANTHROPIC = false ->
  snd (invokeAIModel env parseInt parseFloat StringToNumber post create
         messages options)
  = Throw (Error ("Anthropic API error: Unsupported AI provider: "
                    ++ ToString p)).
Proof.
  intros R P A.
  rewrite (invokeAIModel_unsupported _ _ _ _ _ _ _ _ _ _ R P A).
  reflexivity.
Qed.

Lemma unsupported_provider_refused_witness :
  snd (invokeAIModel Sample.bothEnv Sample.hostNumber Sample.hostNumber
         Sample.hostNumber
         (Sample.answering (Sample.completion (VStr "hi")))
         Sample.throttled Sample.hello
         {| Options.provider := VStr "openai";
            Options.model := VUndefined;
            Options.maxTokens := VUndefined;
            Options.temperature := VUndefined |})
  = Throw (Error ("Anthropic API error: Unsupported AI provider: "
                    ++ ToString (VStr "openai"))).
Proof.
  apply (unsupported_provider_refused Sample.bothEnv Sample.hostNumber
           Sample.hostNumber Sample.hostNumber
           (Sample.answering (Sample.completion (VStr "hi")))
           Sample.throttled Sample.hello
           {| Options.provider := VStr "openai";
              Options.model := VUndefined;
              Options.maxTokens := VUndefined;
              Options.temperature := VUndefined |}
           [] (VStr "openai"));
    reflexivity.
Defined.

(** Detection from the environment never fails, writes exactly one log
    line and only ever yields one of the two known providers: an
    unsupported provider can only come from the option or from
    [AI_PROVIDER]. *)
Theorem detected_provider_is_supported env :
  exists entry provider,
    determineAIProvider env = ([entry], Ok provider)
    /\ (provider = AI_PROVIDER.OPENAI_COMPATIBLE
        \/ provider = AI_PROVIDER.ANTHROPIC)
    /\ (provider = AI_PROVIDER.ANTHROPIC
        <-> present (Env.OPENAI_API_BASE_URL env) = false
            /\ present (Env.ANTHROPIC_API_KEY env) = true).
Proof.
  unfold determineAIProvider, present.
  destruct (truthy (env_value (Env.OPENAI_API_BASE_URL env))).
  - do 2 eexists. split; [reflexivity|]. split; [left; reflexivity|].
    split; [discriminate|intros [H _]; discriminate].
  - destruct (truthy (env_value (Env.ANTHROPIC_API_KEY env))).
    + do 2 eexists. split; [reflexivity|]. split; [right; reflexivity|].
      split; auto.
    + do 2 eexists. split; [reflexivity|]. split; [left; reflexivity|].
      split; [discriminate|intros [_ H]; discriminate].
Qed.

(** On the Anthropic path the credential is checked before the input is
    looked at: without [ANTHROPIC_API_KEY] every invocation fails with
    the same message, whatever the input and the transports. *)
Theorem anthropic_key_checked_first env parseInt parseFloat StringToNumber
    post create messages options l0 p :
  resolveProvider env options = (l0, Ok p) ->
  is_string p AI_PROVIDER.ANTHROPIC = true ->
  present (Env.ANTHROPIC_API_KEY env) = false ->
  snd (invokeAIModel env parseInt parseFloat StringToNumber post create
         messages options)
  = Throw (Error "Anthropic API error: ANTHROPIC_API_KEY environment variable is required for using Anthropic API.").
Proof.
  intros R A K.
  assert (P : is_string p AI_PROVIDER.OPENAI_COMPATIBLE = false).
  { destruct p; try reflexivity. cbn in A |- *.
    apply String.eqb_eq in A. subst. reflexivity. }
  rewrite (invokeAIModel_anthropic _ _ _ _ _ _ _ _ _ _ R P A).
  unfold createAnthropicClient. unfold present, env_value in K.
  destruct (Env.ANTHROPIC_API_KEY env) as [key|]; [|reflexivity].
  cbn in K. apply negb_false_iff in K. rewrite K. reflexivity.
Qed.

Lemma anthropic_key_checked_first_witness :
  snd (invokeAIModel Sample.localEnv Sample.hostNumber Sample.hostNumber
         Sample.hostNumber
         (Sample.answering (Sample.completion (VStr "hi")))
         Sample.throttled VNull Sample.anthropicOptions)
  = Throw (Error "Anthropic API error: ANTHROPIC_API_KEY environment variable is required for using Anthropic API.").
Proof.
  apply (anthropic_key_checked_first Sample.localEnv Sample.hostNumber
           Sample.hostNumber Sample.hostNumber
           (Sample.answering (Sample.completion (VStr "hi")))
           Sample.throttled VNull Sample.anthropicOptions
           [] (VStr "anthropic"));
    reflexivity.
Defined.

(** On the Anthropic path the result is the [text] of the first content
    block of the response, whatever it is: [undefined] when the block has
    no text.  A response whose content is the empty list makes the
    invocation fail. *)
Theorem anthropic_result_is_first_block_text env parseInt parseFloat
    StringToNumber post create messages options l0 p client req fields :
  resolveProvider env options = (l0, Ok p) ->
  is_string p AI_PROVIDER.OPENAI_COMPATIBLE = false ->
  is_string p AI_PROVIDER.ANTHROPIC = true ->
  createAnthropicClient env = Ok client ->
  anthropicRequest env parseInt parseFloat messages options = Ok req ->
  create client req = Ok (VObj fields) ->
  (forall block rest,
     lookup "content" fields = VArr (VObj block :: rest) ->
     invokeAIModel env parseInt parseFloat StringToNumber post create
       messages options
     = (l0, Ok (lookup "text" block)))
  /\ (lookup "content" fields = VArr [] ->
      snd (invokeAIModel env parseInt parseFloat StringToNumber post create
             messages options)
      = Throw (Error "Anthropic API error: Cannot read properties of undefined (reading 'text')")).
Proof.
  intros R P A C Q S.
  rewrite (invokeAIModel_anthropic _ _ _ _ _ _ _ _ _ _ R P A).
  rewrite C. cbn [bind]. rewrite Q. cbn [bind]. rewrite S. cbn [bind].
  unfold firstBlockText. cbn [get bind].
  split.
  - intros block rest ->. reflexivity.
  - intros ->. reflexivity.
Qed.

Lemma anthropic_result_is_first_block_text_witness :
  invokeAIModel Sample.cloudEnv Sample.hostNumber Sample.hostNumber
    Sample.hostNumber (Sample.failing Sample.slowDown)
    (fun _ _ => Ok (VObj [("content",
                           VArr [VObj [("type", VStr "text");
                                       ("text", VStr "Bonjour")]])]))
    Sample.hello Options.empty
  = ([(info, "Using Anthropic API")], Ok (VStr "Bonjour")).
Proof.
  destruct (anthropic_result_is_first_block_text Sample.cloudEnv
              Sample.hostNumber Sample.hostNumber Sample.hostNumber
              (Sample.failing Sample.slowDown)
              (fun _ _ => Ok (VObj [("content",
                                     VArr [VObj [("type", VStr "text");
                                                 ("text", VStr "Bonjour")]])]))
              Sample.hello Options.empty
              [(info, "Using Anthropic API")] (VStr "anthropic")
              {| AnthropicClient.apiKey := "sk-ant-0";
                 AnthropicClient.defaultHeaders :=
                   [("anthropic-beta", "output-128k-2025-02-19")] |}
              {| AnthropicRequest.model := VStr "claude-3-7-sonnet-20250219";
                 AnthropicRequest.max_tokens := VNum (Finite 64000 0);
                 AnthropicRequest.temperature := VNum (Finite 2 (-1));
                 AnthropicRequest.system := VStr "";
                 AnthropicRequest.messages := VStr "hello" |}
              [("content", VArr [VObj [("type", VStr "text");
                                       ("text", VStr "Bonjour")]])]
              eq_refl eq_refl eq_refl eq_refl eq_refl eq_refl)
    as [H _].
  exact (H _ _ eq_refl).
Defined.

(** Each path uses its own transport only: on the OpenAI-compatible path
    the outcome does not depend on the Anthropic SDK, and on every other
    path it does not depend on the HTTP client. *)
Theorem transports_are_separate env parseInt parseFloat StringToNumber
    post create messages options l0 p :
  resolveProvider env options = (l0, Ok p) ->
  (is_string p AI_PROVIDER.OPENAI_COMPATIBLE = true ->
   forall create',
     invokeAIModel env parseInt parseFloat StringToNumber post create'
       messages options
     = invokeAIModel env parseInt parseFloat StringToNumber post create
         messages options)
  /\ (is_string p AI_PROVIDER.OPENAI_COMPATIBLE = false ->
      forall post',
        invokeAIModel env parseInt parseFloat StringToNumber post' create
          messages options
        = invokeAIModel env parseInt parseFloat StringToNumber post create
            messages options).
Proof.
  intros R. split; intros P.
  - intros create'.
    rewrite !(invokeAIModel_openai _ _ _ _ _ _ _ _ _ _ R P). reflexivity.
  - intros post'. destruct (is_string p AI_PROVIDER.ANTHROPIC) eqn:A.
    + rewrite !(invokeAIModel_anthropic _ _ _ _ _ _ _ _ _ _ R P A).
      reflexivity.
    + rewrite !(invokeAIModel_unsupported _ _ _ _ _ _ _ _ _ _ R P A).
      reflexivity.
Qed.

Lemma transports_are_separate_witness :
  invokeAIModel Sample.localEnv Sample.hostNumber Sample.hostNumber
    Sample.hostNumber (Sample.answering (Sample.completion (VStr "hi")))
    (fun _ _ => Ok VNull) Sample.hello Options.empty
  = invokeAIModel Sample.localEnv Sample.hostNumber Sample.hostNumber
      Sample.hostNumber (Sample.answering (Sample.completion (VStr "hi")))
      Sample.throttled Sample.hello Options.empty.
Proof.
  destruct (transports_are_separate Sample.localEnv Sample.hostNumber
              Sample.hostNumber Sample.hostNumber
              (Sample.answering (Sample.completion (VStr "hi")))
              Sample.throttled Sample.hello Options.empty
              [(info, "Using OpenAI compatible API at http://localhost:11434/v1")]
              (VStr "openai_compatible") eq_refl)
    as [H _].
  exact (H eq_refl _).
Defined.

(** On the OpenAI-compatible path a result is always a string, and one
    that neither starts nor ends with white space. *)
Theorem openai_result_is_trimmed_string env parseInt parseFloat
    StringToNumber post create messages options l0 p logs v :
  resolveProvider env options = (l0, Ok p) ->
  is_string p AI_PROVIDER.OPENAI_COMPATIBLE = true ->
  invokeAIModel env parseInt parseFloat StringToNumber post create
    messages options = (logs, Ok v) ->
  exists s,
    v = VStr s
    /\ Str.startsWithSpace s = false /\ Str.endsWithSpace s = false.
Proof.
  intros R P. rewrite (invokeAIModel_openai _ _ _ _ _ _ _ _ _ _ R P).
  destruct (convertToOpenAIMessages messages) as [m|e]; [|discriminate].
  destruct (invokeOpenAICompatibleChat _ _ _ _ _ m options)
    as [l1 [s|e]] eqn:I; [|discriminate].
  intros [= _ <-]. exists s. split; [reflexivity|].
  exact (invoke_ok_trimmed _ _ _ _ _ _ _ _ _ I).
Qed.

Lemma openai_result_is_trimmed_string_witness :
  exists s,
    VStr "Paris." = VStr s
    /\ Str.startsWithSpace s = false /\ Str.endsWithSpace s = false.
Proof.
  apply (openai_result_is_trimmed_string Sample.localEnv Sample.hostNumber
           Sample.hostNumber Sample.hostNumber
           (Sample.answering (Sample.completion (VStr "  Paris. ")))
           Sample.throttled Sample.hello Options.empty
           [(info, "Using OpenAI compatible API at http://localhost:11434/v1")]
           (VStr "openai_compatible")
           [(info, "Using OpenAI compatible API at http://localhost:11434/v1");
            (debug, "Calling OpenAI compatible API with model: llama3")]);
    reflexivity.
Defined.

(** ** The normaliser on well-formed inputs *)

Module NormaliserFacts.
Import Neutral.

Lemma push_converted_turn m :
  push_converted (anthropicTurn m)
  = Ok (if hasContent m then Some (openAITurn m) else None).
Proof.
  unfold hasContent. destruct m as [[] c]; cbn;
    destruct (String.eqb c ""); reflexivity.
Qed.

Lemma forEach_push_converted ms :
  forall acc,
    js_forEach_push push_converted (map anthropicTurn ms) acc
    = Ok (acc ++ map openAITurn (filter hasContent ms))%list.
Proof.
  induction ms as [|m ms IH]; intros acc.
  - cbn. rewrite app_nil_r. reflexivity.
  - cbn [map js_forEach_push filter]. rewrite push_converted_turn.
    cbn [bind]. rewrite IH.
    destruct (hasContent m); [|reflexivity].
    rewrite <- app_assoc. reflexivity.
Qed.

Lemma adapterTurn_turn m :
  adapterTurn (anthropicTurn m) = Ok (Some (openAITurn m)).
Proof. destruct m as [[] c]; reflexivity. Qed.

Lemma forEach_adapterTurn ms :
  forall acc,
    js_forEach_push adapterTurn (map anthropicTurn ms) acc
    = Ok (acc ++ map openAITurn ms)%list.
Proof.
  induction ms as [|m ms IH]; intros acc.
  - cbn. rewrite app_nil_r. reflexivity.
  - cbn [map js_forEach_push]. rewrite adapterTurn_turn.
    cbn [bind]. rewrite IH. rewrite <- app_assoc. reflexivity.
Qed.

Lemma filter_hasContent_all ms :
  allHaveContent ms = true -> filter hasContent ms = ms.
Proof.
  unfold allHaveContent. induction ms as [|m ms IH]; [reflexivity|].
  cbn [forallb filter]. intros H. apply andb_true_iff in H as [H1 H2].
  rewrite H1, (IH H2). reflexivity.
Qed.

Lemma allHaveContent_filter f ms :
  allHaveContent ms = true -> allHaveContent (filter f ms) = true.
Proof.
  unfold allHaveContent. induction ms as [|m ms IH]; [reflexivity|].
  cbn [forallb filter]. intros H. apply andb_true_iff in H as [H1 H2].
  destruct (f m); [cbn [forallb]; rewrite H1|]; auto.
Qed.

Lemma openAITurn_not_system ms :
  map openAITurn (filter (fun m => negb (is_system m)) ms)
  = map encode (filter (fun m => negb (is_system m)) ms).
Proof.
  induction ms as [|m ms IH]; [reflexivity|].
  cbn [filter]. destruct m as [[] c]; cbn [is_system role negb];
    [exact IH|cbn [map]; rewrite IH; reflexivity..].
Qed.

Lemma anthropicPrompt_neutral ms :
  headHasContent ms = true ->
  anthropicPrompt (VArr (map encode ms))
  = Ok (VStr (firstSystem ms),
        VArr (map anthropicTurn (filter (fun m => negb (is_system m)) ms))).
Proof.
  destruct ms as [|m ms]; [reflexivity|].
  intros H. unfold anthropicPrompt.
  rewrite AnthropicFacts.first_is_message_encode.
  simpl in H. rewrite H. cbn [bind].
  rewrite AnthropicFacts.find_encode, AnthropicFacts.filter_encode.
  cbn [bind]. rewrite AnthropicFacts.map_encode. cbn [bind].
  unfold firstSystem.
  destruct (find is_system (m :: ms)) as [x|]; reflexivity.
Qed.

Lemma convert_structured (ps : list (string * value)) s ms :
  lookup "role" ps = VUndefined ->
  lookup "system" ps = VStr s -> s <> "" ->
  lookup "messages" ps = VArr (map anthropicTurn ms) ->
  convertToOpenAIMessages (VObj ps)
  = Ok (VArr (message_of (VStr "system") (VStr s)
                :: map openAITurn (filter hasContent ms))).
Proof.
  intros R S N I. apply String.eqb_neq in N.
  unfold convertToOpenAIMessages. cbn [get bind]. rewrite R.
  cbn [truthy bind get]. rewrite S. cbn [truthy]. rewrite N.
  cbn [negb bind]. rewrite I. cbn [truthy].
  rewrite forEach_push_converted. reflexivity.
Qed.

End NormaliserFacts.

(** Normalising what is already normalised changes nothing: a message
    list that is empty or starts with a message that has a content comes
    back as it is, System messages in place, and the turn made of a
    non-empty string is left alone when normalised again. *)
Theorem normalised_input_is_kept (ms : list Neutral.Message) (s : string) :
  (Neutral.headHasContent ms = true ->
   convertToOpenAIMessages (VArr (map Neutral.encode ms))
   = Ok (VArr (map Neutral.encode ms)))
  /\ (s <> "" ->
      (r <- convertToOpenAIMessages (VStr s) ;; convertToOpenAIMessages r)
      = convertToOpenAIMessages (VStr s)).
Proof.
  split.
  - destruct ms as [|m ms]; [reflexivity|]. intros H.
    unfold convertToOpenAIMessages.
    rewrite AnthropicFacts.first_is_message_encode.
    simpl in H. rewrite H. reflexivity.
  - intros N. apply String.eqb_neq in N. cbn. rewrite N. reflexivity.
Qed.

Lemma normalised_input_is_kept_witness :
  convertToOpenAIMessages
    (VArr [message_of (VStr "system") (VStr "S");
           message_of (VStr "user") (VStr "hi")])
  = Ok (VArr [message_of (VStr "system") (VStr "S");
              message_of (VStr "user") (VStr "hi")])
  /\ (r <- convertToOpenAIMessages (VStr "hello") ;;
      convertToOpenAIMessages r)
     = convertToOpenAIMessages (VStr "hello").
Proof.
  destruct (normalised_input_is_kept
              [ {| Neutral.role := Neutral.System; Neutral.content := "S" |};
                {| Neutral.role := Neutral.User; Neutral.content := "hi" |} ]
              "hello") as [L S].
  split; [apply L; reflexivity|apply S; discriminate].
Defined.

(** The empty string is the exception: its turn has no content, so
    normalising it again takes the list for a list of bare strings and
    wraps the turn into another one. *)
Example empty_string_is_wrapped_twice :
  (r <- convertToOpenAIMessages (VStr "") ;; convertToOpenAIMessages r)
  = Ok (VArr [message_of (VStr "user") (message_of (VStr "user") (VStr ""))]).
Proof. reflexivity. Qed.

(** A structured input without a role, with a non-empty system string and
    a list of Anthropic turns, gives the system message first and then
    the turns in their order, [human] as [user]; the turns without a
    content are left out. *)
Theorem structured_input_normalised (ps : list (string * value))
    (s : string) (ms : list Neutral.Message) :
  lookup "role" ps = VUndefined ->
  lookup "system" ps = VStr s -> s <> "" ->
  lookup "messages" ps = VArr (map Neutral.anthropicTurn ms) ->
  convertToOpenAIMessages (VObj ps)
  = Ok (VArr (message_of (VStr "system") (VStr s)
                :: map openAITurn (filter hasContent ms))).
Proof.
  apply NormaliserFacts.convert_structured.
Qed.

Lemma structured_input_normalised_witness :
  convertToOpenAIMessages
    (VObj [("system", VStr "S");
           ("messages", VArr [message_of (VStr "human") (VStr "hi");
                              message_of (VStr "assistant") (VStr "");
                              message_of (VStr "assistant") (VStr "yes?")])])
  = Ok (VArr [message_of (VStr "system") (VStr "S");
              message_of (VStr "user") (VStr "hi");
              message_of (VStr "assistant") (VStr "yes?")]).
Proof.
  apply (structured_input_normalised
           [("system", VStr "S");
            ("messages", VArr [message_of (VStr "human") (VStr "hi");
                               message_of (VStr "assistant") (VStr "");
                               message_of (VStr "assistant") (VStr "yes?")])]
           "S"
           [ {| Neutral.role := Neutral.User; Neutral.content := "hi" |};
             {| Neutral.role := Neutral.Assistant; Neutral.content := "" |};
             {| Neutral.role := Neutral.Assistant;
                Neutral.content := "yes?" |} ]);
    try reflexivity.
  discriminate.
Defined.

(** Round trip between the two targets: when every message has a content
    and there is a System message, the system string and the turns made
    for Anthropic, put together as a structured input, normalise back to
    the first System message followed by the other messages as they
    were. *)
Theorem anthropic_shape_converts_back (ms : list Neutral.Message) sys turns :
  allHaveContent ms = true ->
  Neutral.firstSystem ms <> "" ->
  anthropicPrompt (VArr (map Neutral.encode ms)) = Ok (sys, turns) ->
  convertToOpenAIMessages (VObj [("system", sys); ("messages", turns)])
  = Ok (VArr (message_of (VStr "system") (VStr (Neutral.firstSystem ms))
                :: map Neutral.encode
                     (filter (fun m => negb (Neutral.is_system m)) ms))).
Proof.
  intros A F. rewrite NormaliserFacts.anthropicPrompt_neutral.
  - intros [= <- <-].
    rewrite (NormaliserFacts.convert_structured _ (Neutral.firstSystem ms)
               (filter (fun m => negb (Neutral.is_system m)) ms));
      try reflexivity; [|exact F].
    rewrite NormaliserFacts.filter_hasContent_all
      by (apply NormaliserFacts.allHaveContent_filter; exact A).
    rewrite NormaliserFacts.openAITurn_not_system. reflexivity.
  - destruct ms as [|m ms]; [reflexivity|].
    cbn in A |- *. apply andb_true_iff in A as [A _]. exact A.
Qed.

Lemma anthropic_shape_converts_back_witness :
  convertToOpenAIMessages
    (VObj [("system", VStr "S");
           ("messages", VArr [message_of (VStr "human") (VStr "hi");
                              message_of (VStr "assistant") (VStr "yes?")])])
  = Ok (VArr [message_of (VStr "system") (VStr "S");
              message_of (VStr "user") (VStr "hi");
              message_of (VStr "assistant") (VStr "yes?")]).
Proof.
  apply (anthropic_shape_converts_back
           [ {| Neutral.role := Neutral.User; Neutral.content := "hi" |};
             {| Neutral.role := Neutral.System; Neutral.content := "S" |};
             {| Neutral.role := Neutral.Assistant;
                Neutral.content := "yes?" |} ]);
    try reflexivity.
  discriminate.
Defined.

(** Without a System message the round trip fails: the structured input
    has an empty system string, is not recognised, and is serialised. *)
Example no_system_does_not_convert_back :
  (prompt <- anthropicPrompt
               (VArr [message_of (VStr "user") (VStr "hi")]) ;;
   convertToOpenAIMessages
     (VObj [("system", fst prompt); ("messages", snd prompt)]))
  = Ok (VArr [message_of (VStr "user")
                (VStr ("{" ++ JSON.quote "system" ++ ":" ++ JSON.quote ""
                         ++ "," ++ JSON.quote "messages" ++ ":[{"
                         ++ JSON.quote "role" ++ ":" ++ JSON.quote "human"
                         ++ "," ++ JSON.quote "content" ++ ":"
                         ++ JSON.quote "hi" ++ "}]}"))]).
Proof. reflexivity. Qed.

(** ** The client factory and its adapter *)

(** On a structured input whose turns all have a content, the adapter
    builds the very messages the normaliser builds. *)
Theorem adapter_agrees_with_normaliser (s : string)
    (ms : list Neutral.Message) :
  s <> "" -> allHaveContent ms = true ->
  (l <- adapterMessages
          (VObj [("system", VStr s);
                 ("messages", VArr (map Neutral.anthropicTurn ms))]) ;;
   Ok (VArr l))
  = convertToOpenAIMessages
      (VObj [("system", VStr s);
             ("messages", VArr (map Neutral.anthropicTurn ms))]).
Proof.
  intros N A.
  rewrite (NormaliserFacts.convert_structured _ s ms);
    try reflexivity; [|exact N].
  rewrite (NormaliserFacts.filter_hasContent_all _ A).
  apply String.eqb_neq in N.
  unfold adapterMessages. cbn [get bind lookup String.eqb Ascii.eqb].
  cbn. rewrite N. cbn.
  rewrite NormaliserFacts.forEach_adapterTurn. reflexivity.
Qed.

Lemma adapter_agrees_with_normaliser_witness :
  (l <- adapterMessages
          (VObj [("system", VStr "S");
                 ("messages", VArr [message_of (VStr "human") (VStr "hi")])]) ;;
   Ok (VArr l))
  = convertToOpenAIMessages
      (VObj [("system", VStr "S");
             ("messages", VArr [message_of (VStr "human") (VStr "hi")])]).
Proof.
  apply (adapter_agrees_with_normaliser "S"
           [ {| Neutral.role := Neutral.User; Neutral.content := "hi" |} ]).
  - discriminate.
  - reflexivity.
Defined.

(** They part on a turn without a content, which the adapter keeps and
    the normaliser leaves out, and on an input with messages only, which
    the adapter converts and the normaliser serialises. *)
Example adapter_keeps_what_normaliser_drops :
  adapterMessages
    (VObj [("system", VStr "S");
           ("messages", VArr [message_of (VStr "human") (VStr "")])])
  = Ok [message_of (VStr "system") (VStr "S");
        message_of (VStr "user") (VStr "")]
  /\ convertToOpenAIMessages
       (VObj [("system", VStr "S");
              ("messages", VArr [message_of (VStr "human") (VStr "")])])
     = Ok (VArr [message_of (VStr "system") (VStr "S")])
  /\ adapterMessages
       (VObj [("messages", VArr [message_of (VStr "human") (VStr "hi")])])
     = Ok [message_of (VStr "user") (VStr "hi")].
Proof. repeat split; reflexivity. Qed.

Lemma get_defined v key key' x :
  get v key = Ok x -> get v key' = Ok (field key' v).
Proof.
  destruct v; cbn; try discriminate; intros _; unfold field; cbn;
    try reflexivity.
  - destruct (String.eqb key' "length"); [reflexivity|].
    destruct (index_of_key key'); [|reflexivity].
    destruct (String.get n s); reflexivity.
  - destruct (String.eqb key' "length"); [reflexivity|].
    destruct (index_of_key key'); reflexivity.
Qed.

Section Factory.

Variable env : Env.t.
Variables parseInt parseFloat StringToNumber : string -> number.
Variable post : Client.t -> string -> ChatPayload.t -> result value.

(** The adapter's [create], step by step. *)
Lemma adapterCreate_cases params :
  adapterCreate env parseInt parseFloat StringToNumber post params =
  match adapterMessages params with
  | Throw e => ([], Throw e)
  | Ok messages =>
      match invokeOpenAICompatibleChat env parseInt parseFloat
              StringToNumber post (VArr messages)
              {| Options.provider := VUndefined;
                 Options.model := field "model" params;
                 Options.maxTokens := field "max_tokens" params;
                 Options.temperature := field "temperature" params |} with
      | (l, Throw e) => (l, Throw e)
      | (l, Ok s) =>
          (l, Ok (VObj [("id", VStr "openai-compatible-message");
                        ("content", VArr [VObj [("text", VStr s);
                                                ("type", VStr "text")]]);
                        ("model", field "model" params);
                        ("role", VStr "assistant");
                        ("usage",
                         VObj [("input_tokens", VNum (Finite 0 0));
                               ("output_tokens", VNum (Finite 0 0))])]))
      end
  end.
Proof.
  unfold adapterCreate.
  destruct (adapterMessages params) as [messages|e] eqn:AM;
    [|reflexivity].
  assert (G : exists x, get params "system" = Ok x).
  { unfold adapterMessages in AM.
    destruct (get params "system") as [x|e]; [eauto|discriminate]. }
  destruct G as [x G].
  rewrite (get_defined _ _ "model" _ G),
    (get_defined _ _ "max_tokens" _ G),
    (get_defined _ _ "temperature" _ G).
  cbn [lift bind bindM].
  destruct (invokeOpenAICompatibleChat _ _ _ _ _ _ _) as [l [s|e]];
    cbn; rewrite ?app_nil_r; reflexivity.
Qed.

End Factory.

(** What the adapter returns can be read like a response of the
    Anthropic SDK: its first content block holds the completion, that
    is, the string the OpenAI-compatible client returned for the messages
    and options made of [params], which has no white space around it;
    its role is [assistant] and its [model] is the model that was asked
    for. *)
Theorem adapter_response_is_readable env parseInt parseFloat StringToNumber
    post params logs response :
  adapterCreate env parseInt parseFloat StringToNumber post params
  = (logs, Ok response) ->
  exists messages s,
    adapterMessages params = Ok messages
    /\ invokeOpenAICompatibleChat env parseInt parseFloat StringToNumber
         post (VArr messages)
         {| Options.provider := VUndefined;
            Options.model := field "model" params;
            Options.maxTokens := field "max_tokens" params;
            Options.temperature := field "temperature" params |}
       = (logs, Ok s)
    /\ firstBlockText response = Ok (VStr s)
    /\ Str.startsWithSpace s = false /\ Str.endsWithSpace s = false
    /\ field "role" response = VStr "assistant"
    /\ field "model" response = field "model" params.
Proof.
  rewrite adapterCreate_cases.
  destruct (adapterMessages params) as [messages|e]; [|discriminate].
  destruct (invokeOpenAICompatibleChat _ _ _ _ _ _ _) as [l [s|e]] eqn:I;
    [|discriminate].
  intros [= <- <-]. exists messages, s.
  destruct (invoke_ok_trimmed _ _ _ _ _ _ _ _ _ I) as [S E].
  repeat split; assumption.
Qed.

Lemma adapter_response_is_readable_witness :
  exists messages s,
    adapterMessages
      (VObj [("model", VStr "llama3");
             ("messages", VStr "Capital of France?")])
    = Ok messages
    /\ Sample.invokeLocal
         (Sample.answering (Sample.completion (VStr "  Paris. ")))
         (VArr messages)
         {| Options.provider := VUndefined;
            Options.model :=
              field "model"
                (VObj [("model", VStr "llama3");
                       ("messages", VStr "Capital of France?")]);
            Options.maxTokens :=
              field "max_tokens"
                (VObj [("model", VStr "llama3");
                       ("messages", VStr "Capital of France?")]);
            Options.temperature :=
              field "temperature"
                (VObj [("model", VStr "llama3");
                       ("messages", VStr "Capital of France?")]) |}
       = ([(debug, "Calling OpenAI compatible API with model: llama3")],
          Ok s)
    /\ firstBlockText
         (VObj [("id", VStr "openai-compatible-message");
                ("content", VArr [VObj [("text", VStr "Paris.");
                                        ("type", VStr "text")]]);
                ("model", VStr "llama3");
                ("role", VStr "assistant");
                ("usage", VObj [("input_tokens", VNum (Finite 0 0));
                                ("output_tokens", VNum (Finite 0 0))])])
       = Ok (VStr s)
    /\ Str.startsWithSpace s = false /\ Str.endsWithSpace s = false
    /\ field "role"
         (VObj [("id", VStr "openai-compatible-message");
                ("content", VArr [VObj [("text", VStr "Paris.");
                                        ("type", VStr "text")]]);
                ("model", VStr "llama3");
                ("role", VStr "assistant");
                ("usage", VObj [("input_tokens", VNum (Finite 0 0));
                                ("output_tokens", VNum (Finite 0 0))])])
       = VStr "assistant"
    /\ field "model"
         (VObj [("id", VStr "openai-compatible-message");
                ("content", VArr [VObj [("text", VStr "Paris.");
                                        ("type", VStr "text")]]);
                ("model", VStr "llama3");
                ("role", VStr "assistant");
                ("usage", VObj [("input_tokens", VNum (Finite 0 0));
                                ("output_tokens", VNum (Finite 0 0))])])
       = field "model"
           (VObj [("model", VStr "llama3");
                  ("messages", VStr "Capital of France?")]).
Proof.
  apply (adapter_response_is_readable Sample.localEnv Sample.hostNumber
           Sample.hostNumber Sample.hostNumber
           (Sample.answering (Sample.completion (VStr "  Paris. ")))
           (VObj [("model", VStr "llama3");
                  ("messages", VStr "Capital of France?")])
           [(debug, "Calling OpenAI compatible API with model: llama3")]).
  reflexivity.
Defined.

(** With nothing configured and no provider asked for, making the client
    succeeds with the warning; the missing endpoint only shows on the
    first call of the adapter, as the error of the HTTP client, and
    nothing is sent. *)
Theorem configuration_failure_is_deferred env parseInt parseFloat
    StringToNumber post options :
  truthy (Options.provider options) = false ->
  present (Env.AI_PROVIDER env) = false ->
  present (Env.OPENAI_API_BASE_URL env) = false ->
  present (Env.ANTHROPIC_API_KEY env) = false ->
  createAIClient env options = ([defaultingWarning], Ok AIClient.Adapter)
  /\ forall params messages,
       adapterMessages params = Ok messages ->
       adapterCreate env parseInt parseFloat StringToNumber post params
       = ([], Throw (Error "Error setting up request: OPENAI_API_BASE_URL environment variable is missing. Set it to use OpenAI compatible API (e.g., http://localhost:11434/v1).")).
Proof.
  unfold present. intros O P B K. split.
  - unfold createAIClient, resolveProvider, determineAIProvider.
    rewrite O, P, B, K. reflexivity.
  - intros params messages AM. rewrite adapterCreate_cases, AM.
    rewrite invoke_cases.
    unfold createOpenAICompatibleClient, getOpenAICompatibleConfig.
    unfold env_value in B.
    destruct (Env.OPENAI_API_BASE_URL env) as [url|]; [|reflexivity].
    cbn in B. apply negb_false_iff in B. rewrite B. reflexivity.
Qed.

Lemma configuration_failure_is_deferred_witness :
  createAIClient Sample.emptyEnv Options.empty
  = ([defaultingWarning], Ok AIClient.Adapter)
  /\ adapterCreate Sample.emptyEnv Sample.hostNumber Sample.hostNumber
       Sample.hostNumber (Sample.answering (Sample.completion (VStr "hi")))
       (VObj [("messages", VStr "Capital of France?")])
     = ([], Throw (Error "Error setting up request: OPENAI_API_BASE_URL environment variable is missing. Set it to use OpenAI compatible API (e.g., http://localhost:11434/v1).")).
Proof.
  destruct (configuration_failure_is_deferred Sample.emptyEnv
              Sample.hostNumber Sample.hostNumber Sample.hostNumber
              (Sample.answering (Sample.completion (VStr "hi")))
              Options.empty eq_refl eq_refl eq_refl eq_refl) as [C A].
  split; [exact C|].
  apply (A _ [message_of (VStr "user") (VStr "Capital of France?")]).
  reflexivity.
Defined.

(** A client that is made matches the provider: the adapter for the
    OpenAI-compatible provider, whatever is configured, and for Anthropic
    the SDK client with the configured, non-empty key and the header for
    long outputs. *)
Theorem created_client_matches_provider env options l0 p logs client :
  resolveProvider env options = (l0, Ok p) ->
  createAIClient env options = (logs, Ok client) ->
  (client = AIClient.Adapter
   /\ is_string p AI_PROVIDER.OPENAI_COMPATIBLE = true)
  \/ (exists key,
        client = AIClient.Sdk
                   {| AnthropicClient.apiKey := key;
                      AnthropicClient.defaultHeaders :=
                        [("anthropic-beta", "output-128k-2025-02-19")] |}
        /\ is_string p AI_PROVIDER.ANTHROPIC = true
        /\ Env.ANTHROPIC_API_KEY env = Some key /\ key <> "").
Proof.
  intros R. unfold createAIClient. rewrite R. cbn [bindM].
  destruct (is_string p AI_PROVIDER.OPENAI_COMPATIBLE) eqn:P.
  - cbn. intros [= _ <-]. left. split; reflexivity.
  - destruct (is_string p AI_PROVIDER.ANTHROPIC) eqn:A; [|discriminate].
    unfold createAnthropicClient.
    destruct (Env.ANTHROPIC_API_KEY env) as [key|]; [|discriminate].
    destruct (String.eqb key "") eqn:K; [discriminate|].
    cbn. intros [= _ <-]. right. exists key.
    apply String.eqb_neq in K. auto.
Qed.

Lemma created_client_matches_provider_witness :
  (AIClient.Sdk
     {| AnthropicClient.apiKey := "sk-ant-0";
        AnthropicClient.defaultHeaders :=
          [("anthropic-beta", "output-128k-2025-02-19")] |}
   = AIClient.Adapter
   /\ is_string (VStr "anthropic") AI_PROVIDER.OPENAI_COMPATIBLE = true)
  \/ (exists key,
        AIClient.Sdk
          {| AnthropicClient.apiKey := "sk-ant-0";
             AnthropicClient.defaultHeaders :=
               [("anthropic-beta", "output-128k-2025-02-19")] |}
        = AIClient.Sdk
            {| AnthropicClient.apiKey := key;
               AnthropicClient.defaultHeaders :=
                 [("anthropic-beta", "output-128k-2025-02-19")] |}
        /\ is_string (VStr "anthropic") AI_PROVIDER.ANTHROPIC = true
        /\ Env.ANTHROPIC_API_KEY Sample.cloudEnv = Some key /\ key <> "").
Proof.
  apply (created_client_matches_provider Sample.cloudEnv Options.empty
           [(info, "Using Anthropic API")] (VStr "anthropic")
           [(info, "Using Anthropic API")]);
    reflexivity.
Defined.

(** Making a client fails only for a provider other than the
    OpenAI-compatible one; what is thrown is made by [new Error], its
    message starts with "Failed to create AI client: ", and it is the
    message logged last, at the error level. *)
Theorem client_creation_failure_is_wrapped env options l0 p logs e :
  resolveProvider env options = (l0, Ok p) ->
  createAIClient env options = (logs, Throw e) ->
  is_string p AI_PROVIDER.OPENAI_COMPATIBLE = false
  /\ exists text,
       e = Error ("Failed to create AI client: " ++ text)
       /\ lastEntry logs
          = Some (error_level, "Failed to create AI client: " ++ text).
Proof.
  intros R. unfold createAIClient. rewrite R. cbn [bindM].
  destruct (is_string p AI_PROVIDER.OPENAI_COMPATIBLE) eqn:P;
    [discriminate|].
  intros H. split; [reflexivity|]. revert H.
  destruct (is_string p AI_PROVIDER.ANTHROPIC) eqn:A.
  - destruct (createAnthropicClient env) as [c|e0]; [discriminate|].
    cbn. intros [= <- <-].
    eexists. split; [reflexivity|apply lastEntry_app].
  - cbn. intros [= <- <-].
    eexists. split; [reflexivity|apply lastEntry_app].
Qed.

Lemma client_creation_failure_is_wrapped_witness :
  is_string (VStr "anthropic") AI_PROVIDER.OPENAI_COMPATIBLE = false
  /\ exists text,
       Error "Failed to create AI client: ANTHROPIC_API_KEY environment variable is required for using Anthropic API."
       = Error ("Failed to create AI client: " ++ text)
       /\ lastEntry
            [(error_level,
              "Failed to create AI client: ANTHROPIC_API_KEY environment variable is required for using Anthropic API.")]
          = Some (error_level, "Failed to create AI client: " ++ text).
Proof.
  apply (client_creation_failure_is_wrapped Sample.localEnv
           Sample.anthropicOptions [] (VStr "anthropic"));
    reflexivity.
Defined.

(** ** A blank completion *)

